(** * pg-data-validator: a shallow embedding of [pg-data-validator.py]

    The validator reads a JSON configuration, connects to every database
    it lists and runs the configured checks against it.  The development
    below embeds the Python script function by function:

    - JSON documents and row columns are Python objects ([value]);
    - the built-in operations the script relies on ([dict.get], subscript,
      iteration, truthiness, hashing, the comparisons of the [operator]
      module) are given their Python meaning on those objects;
    - the database driver is an interface ([db_connect], [db_execute],
      [db_release]) over an abstract world, so every statement holds for
      every behaviour of the server;
    - control flow ([return], exceptions, [sys.exit]) and the two effects
      of the script (statements sent over a connection, records handed to
      [logging]) are threaded through a small state-and-exception monad.

    Numbers are compared by their exact value: an [int], a [float] and a
    [Decimal] are each given the rational they stand for, so that no
    comparison rounds.  A [str] is held as the UTF-8 encoding of its code
    points; the byte-wise lexicographic order of two encodings is the order
    of Python on the code points. *)

From Stdlib Require Import ZArith QArith String Ascii List.
From stdpp Require Import gmap strings list.

Set Warnings "-register-all".

Local Open Scope string_scope.
Local Open Scope list_scope.

(** ** Python objects *)

(** A [float]: a finite binary floating-point number
    [(-1)^negative * m * 2^e], an infinity or a NaN.  Every number of the
    binary64 format is of the first form; [m] and [e] are left unbounded,
    as no comparison depends on their range.  A NaN equals nothing, itself
    included, so that a set tells two NaN apart by what object each is:
    [obj] names the object. *)
Inductive float : Type :=
| FFinite (negative : bool) (m : N) (e : Z)
| FInf (negative : bool)
| FNan (obj : N).

(** A [decimal.Decimal], which is what the driver returns for a [numeric]
    column: sign, digits and exponent, [(-1)^negative * digits * 10^e], an
    infinity or a quiet NaN. *)
Inductive Decimal : Type :=
| DFinite (negative : bool) (digits : N) (e : Z)
| DInf (negative : bool)
| DNan (obj : N).

(** What [json.load] builds and what a column of a fetched row holds when
    its type is boolean, numeric, text or an array of these.  A [dict]
    keeps its insertion order, which iteration exposes, so it is an
    association list; the keys of a parsed object are pairwise distinct and
    lookup takes the first binding. *)
Inductive value : Type :=
| VNone
| VBool (b : bool)
| VInt (z : Z)
| VFloat (f : float)
| VDecimal (d : Decimal)
| VStr (s : string)
| VList (l : list value)
| VDict (d : list (string * value)).

(** The exceptions the script can meet; all derive from [Exception]. *)
Inductive exn : Type :=
| KeyError (k : string)
| TypeError
| AttributeError
| IndexError
| InvalidOperation
| ProgrammingError
| DbError (msg : string).

(** A row is a tuple of columns. *)
Definition row : Type := list value.

Module Py.

(** The value of a finite [float] or [Decimal]. *)
Definition scaled (base : Z) (negative : bool) (m : N) (e : Z) : Q :=
  inject_Z (if negative then - Z.of_N m else Z.of_N m) * Qpower (inject_Z base) e.

(** What the numeric types hold.  [bool] is a subclass of [int]: [True] is
    1 and [False] is 0. *)
Inductive number : Type :=
| Finite (q : Q)
| Infinite (negative : bool)
| NaN.

Definition num_of (v : value) : option number :=
  match v with
  | VBool true => Some (Finite 1)
  | VBool false => Some (Finite 0)
  | VInt z => Some (Finite (inject_Z z))
  | VFloat (FFinite n m e) => Some (Finite (scaled 2 n m e))
  | VFloat (FInf n) => Some (Infinite n)
  | VFloat (FNan _) => Some NaN
  | VDecimal (DFinite n m e) => Some (Finite (scaled 10 n m e))
  | VDecimal (DInf n) => Some (Infinite n)
  | VDecimal (DNan _) => Some NaN
  | _ => None
  end.

(** [x == y] and [x < y] on numbers; both are false as soon as one of the
    two is a NaN. *)
Definition eq_num (x y : number) : bool :=
  match x, y with
  | Finite p, Finite q => Qeq_bool p q
  | Infinite a, Infinite b => Bool.eqb a b
  | _, _ => false
  end.

Definition lt_num (x y : number) : bool :=
  match x, y with
  | Finite p, Finite q =>
      match (p ?= q)%Q with
      | Datatypes.Lt => true
      | _ => false
      end
  | Infinite true, Finite _ => true
  | Infinite true, Infinite false => true
  | Finite _, Infinite false => true
  | _, _ => false
  end.

(** [bool(v)], as taken by [if v:] and [not v]. *)
Definition truthy (v : value) : bool :=
  match v with
  | VNone => false
  | VBool b => b
  | VInt z => negb (z =? 0)%Z
  | VFloat _ | VDecimal _ =>
      match num_of v with
      | Some x => negb (eq_num x (Finite 0))
      | None => true
      end
  | VStr s => negb (String.eqb s "")
  | VList l => negb (Nat.eqb (length l) 0)
  | VDict d => negb (Nat.eqb (length d) 0)
  end.

Fixpoint assoc (k : string) (d : list (string * value)) : option value :=
  match d with
  | [] => None
  | (k', v) :: d' => if String.eqb k k' then Some v else assoc k d'
  end.

(** [d.get(k, default)]; only a [dict] has the method. *)
Definition get (d : value) (k : string) (default : value) : exn + value :=
  match d with
  | VDict kv => inr (match assoc k kv with Some v => v | None => default end)
  | _ => inl AttributeError
  end.

(** [d[k]] with a string key. *)
Definition getitem (d : value) (k : string) : exn + value :=
  match d with
  | VDict kv => match assoc k kv with Some v => inr v | None => inl (KeyError k) end
  | _ => inl TypeError
  end.

(** In UTF-8 a byte [10xxxxxx] continues the code point that the byte
    before it belongs to; every other byte starts a code point. *)
Definition continuation (c : ascii) : bool :=
  match c with
  | Ascii _ _ _ _ _ _ b6 b7 => b7 && negb b6
  end.

Definition continued (s : string) : bool :=
  match s with
  | EmptyString => false
  | String c _ => continuation c
  end.

(** The code points of a string, each as a string of one character. *)
Fixpoint code_points (s : string) : list string :=
  match s with
  | EmptyString => []
  | String c s' =>
      match code_points s' with
      | p :: ps =>
          if continued s' then String c p :: ps
          else String c EmptyString :: p :: ps
      | [] => [String c EmptyString]
      end
  end.

(** The characters [for c in s] visits. *)
Definition chars (s : string) : list value := map VStr (code_points s).

(** The elements [for x in v] visits. *)
Definition iter (v : value) : exn + list value :=
  match v with
  | VList l => inr l
  | VStr s => inr (chars s)
  | VDict d => inr (map (fun kv => VStr (fst kv)) d)
  | _ => inl TypeError
  end.

(** [r[0]] on a tuple. *)
Definition index0 (r : row) : exn + value :=
  match r with
  | [] => inl IndexError
  | v :: _ => inr v
  end.

(** [a is b], where it says more than [a == b]: on two NaN.  The elements
    of two containers are compared with [a is b or a == b]. *)
Definition identical (a b : value) : bool :=
  match a, b with
  | VFloat (FNan i), VFloat (FNan j) => N.eqb i j
  | VDecimal (DNan i), VDecimal (DNan j) => N.eqb i j
  | _, _ => false
  end.

(** [a == b]. *)
Fixpoint eq (a b : value) {struct a} : bool :=
  match a, b with
  | VNone, VNone => true
  | VStr s, VStr t => String.eqb s t
  | VList xs, VList ys =>
      (fix go (xs ys : list value) {struct xs} : bool :=
         match xs, ys with
         | [], [] => true
         | x :: xs', y :: ys' => (identical x y || eq x y) && go xs' ys'
         | _, _ => false
         end) xs ys
  | VDict d, VDict e =>
      Nat.eqb (length d) (length e) &&
      (fix go (d : list (string * value)) {struct d} : bool :=
         match d with
         | [] => true
         | (k, v) :: d' =>
             match assoc k e with
             | Some w => (identical v w || eq v w) && go d'
             | None => false
             end
         end) d
  | _, _ =>
      match num_of a, num_of b with
      | Some x, Some y => eq_num x y
      | _, _ => false
      end
  end.

(** The four order comparisons of the [operator] module. *)
Inductive order : Type := Lt | Le | Gt | Ge.

Definition order_Z (o : order) (x y : Z) : bool :=
  match o with
  | Lt => (x <? y)%Z
  | Le => (x <=? y)%Z
  | Gt => (y <? x)%Z
  | Ge => (y <=? x)%Z
  end.

Definition order_num (o : order) (x y : number) : bool :=
  match o with
  | Lt => lt_num x y
  | Le => lt_num x y || eq_num x y
  | Gt => lt_num y x
  | Ge => lt_num y x || eq_num y x
  end.

Definition order_str (o : order) (s t : string) : bool :=
  match o with
  | Lt => String.ltb s t
  | Le => String.leb s t
  | Gt => String.ltb t s
  | Ge => String.leb t s
  end.

Definition is_nan (v : value) : bool :=
  match v with
  | VFloat (FNan _) | VDecimal (DNan _) => true
  | _ => false
  end.

Definition is_decimal (v : value) : bool :=
  match v with
  | VDecimal _ => true
  | _ => false
  end.

(** [a < b] and its siblings: numbers by value, strings and lists
    lexicographically, anything else raises [TypeError].  Ordering a NaN
    is false between [float] and [int], and raises [InvalidOperation] as
    soon as a [Decimal] takes part. *)
Fixpoint compare (o : order) (a b : value) {struct a} : exn + bool :=
  match a, b with
  | VStr s, VStr t => inr (order_str o s t)
  | VList xs, VList ys =>
      (fix go (xs ys : list value) {struct xs} : exn + bool :=
         match xs, ys with
         | [], [] => inr (order_Z o 0 0)
         | [], _ :: _ => inr (order_Z o 0 1)
         | _ :: _, [] => inr (order_Z o 1 0)
         | x :: xs', y :: ys' =>
             if identical x y || eq x y then go xs' ys' else compare o x y
         end) xs ys
  | _, _ =>
      match num_of a, num_of b with
      | Some x, Some y =>
          if (is_decimal a || is_decimal b) && (is_nan a || is_nan b)
          then inl InvalidOperation
          else inr (order_num o x y)
      | _, _ => inl TypeError
      end
  end.

(** Hashing.  Two hashable objects are the same member of a [set], or
    the same key of a [dict], when they are the same object or are equal;
    [key_of] sends a hashable object to a canonical form that decides it:
    a number to the fraction in lowest terms it is equal to, a NaN to the
    object it is.  Lists and dicts are unhashable. *)
Inductive key : Type :=
| KNone
| KNum (n : Z) (d : positive)
| KInf (negative : bool)
| KNan (decimal : bool) (obj : N)
| KStr (s : string).

Definition key_Q (q : Q) : key :=
  let r := Qred q in KNum (Qnum r) (Qden r).

Definition key_of (v : value) : exn + key :=
  match v with
  | VNone => inr KNone
  | VBool true => inr (KNum 1 1)
  | VBool false => inr (KNum 0 1)
  | VInt z => inr (KNum z 1)
  | VFloat (FFinite n m e) => inr (key_Q (scaled 2 n m e))
  | VFloat (FInf n) => inr (KInf n)
  | VFloat (FNan i) => inr (KNan false i)
  | VDecimal (DFinite n m e) => inr (key_Q (scaled 10 n m e))
  | VDecimal (DInf n) => inr (KInf n)
  | VDecimal (DNan i) => inr (KNan true i)
  | VStr s => inr (KStr s)
  | VList _ | VDict _ => inl TypeError
  end.

#[global] Instance key_eq_dec : EqDecision key.
Proof. solve_decision. Defined.

#[global] Instance key_countable : Countable key.
Proof.
  refine (inj_countable'
    (fun k => match k with
              | KNone => inl tt
              | KNum n d => inr (inl (n, d))
              | KInf b => inr (inr (inl b))
              | KNan b i => inr (inr (inr (inl (b, i))))
              | KStr s => inr (inr (inr (inr s)))
              end)
    (fun c => match c with
              | inl _ => KNone
              | inr (inl (n, d)) => KNum n d
              | inr (inr (inl b)) => KInf b
              | inr (inr (inr (inl (b, i)))) => KNan b i
              | inr (inr (inr (inr s))) => KStr s
              end) _).
  by intros [].
Defined.

(** [hash(tuple)] hashes every element, left to right. *)
Fixpoint tuple_key (r : row) : exn + list key :=
  match r with
  | [] => inr []
  | v :: r' =>
      match key_of v with
      | inl e => inl e
      | inr k =>
          match tuple_key r' with
          | inl e => inl e
          | inr ks => inr (k :: ks)
          end
      end
  end.

End Py.


(** ** The operator registry *)

(** The functions of the [operator] module the script refers to. *)
Inductive op_func : Type :=
| operator_eq
| operator_ne
| operator_gt
| operator_ge
| operator_lt
| operator_le.

Definition OPERATORS : gmap string op_func :=
  list_to_map
    [ ("=", operator_eq);
      ("!=", operator_ne);
      (">", operator_gt);
      (">=", operator_ge);
      ("<", operator_lt);
      ("<=", operator_le) ].

(** [OPERATORS.get(op_str)]: the argument is hashed first; an object that
    is not a string equals none of the keys. *)
Definition OPERATORS_get (op_str : value) : exn + option op_func :=
  match Py.key_of op_str with
  | inl e => inl e
  | inr (Py.KStr s) => inr (OPERATORS !! s)
  | inr _ => inr None
  end.

(** [op_func(a, b)]. *)
Definition call_op (f : op_func) (a b : value) : exn + bool :=
  match f with
  | operator_eq => inr (Py.eq a b)
  | operator_ne => inr (negb (Py.eq a b))
  | operator_gt => Py.compare Py.Gt a b
  | operator_ge => Py.compare Py.Ge a b
  | operator_lt => Py.compare Py.Lt a b
  | operator_le => Py.compare Py.Le a b
  end.

(** ** Effects *)

(** What a statement leaves in the cursor when it produces rows: the column
    names of [cursor.description] and the rows not fetched yet. *)
Record result_set : Type := {
  rs_columns : list string;
  rs_rows : list row
}.

(** The statements the script sends.  The text of the two fixed statements
    is determined by the schema they carry; a configured query is passed to
    the driver as the configuration gives it. *)
Inductive statement : Type :=
| SetSearchPath (schema : value)
| SelectBaseTables (schema : value)
| UserQuery (query : value).

(** The keyword arguments of [psycopg.connect]. *)
Record connect_args : Type := {
  ca_host : value;
  ca_port : value;
  ca_dbname : value;
  ca_user : value;
  ca_password : value
}.

(** A record handed to [logging]: its level and the values its message is
    formatted from, one constructor per message of the script. *)
Inductive level : Type := INFO | ERROR.

Inductive message : Type :=
| MConnected
| MSearchPath (schema : value)
| MConnectFailed (e : exn)
| MBanner
| MQuery (query : value)
| MRunningPrinter (description : value)
| MRowsReturned (n : nat)
| MRow (r : list (string * value))
| MPrinterFailed (e : exn)
| MRunningTableExists (required_tables : value)
| MAllTablesExist
| MMissingTables (missing_tables : list value)
| MTableExistsFailed (e : exn)
| MRunningCountCheck (description : value)
| MOperatorValue (op_str value_ : value)
| MUnsupportedOperator (op_str : value)
| MNoRows
| MCheckPassed (actual_value op_str value_ : value)
| MCheckFailed (actual_value op_str value_ : value)
| MCountCheckFailed (e : exn)
| MRunningIncludesCheck (description : value)
| MExpectedValues (expected_values : value)
| MAllPresent
| MMissingValues (missing : gset (list Py.key))
| MIncludesCheckFailed (e : exn)
| MConnectionClosed
| MConfigNotFound
| MInvalidJson.

Definition record : Type := level * message.

(** How a computation ends: with a value, with an exception in flight, or
    with [SystemExit] in flight ([sys.exit]), which [except Exception] does
    not catch. *)
Inductive outcome (A : Type) : Type :=
| Ok (a : A)
| Raise (e : exn)
| Exit (code : Z).

Arguments Ok {A} a.
Arguments Raise {A} e.
Arguments Exit {A} code.

(** Computations over a state [S]. *)
Definition M (S A : Type) : Type := S -> outcome A * S.

#[global] Instance M_ret {S} : MRet (M S) :=
  fun A (a : A) (s : S) => (Ok a, s).

#[global] Instance M_bind {S} : MBind (M S) :=
  fun A B (f : A -> M S B) (m : M S A) (s : S) =>
    match m s with
    | (Ok a, s') => f a s'
    | (Raise e, s') => (Raise e, s')
    | (Exit c, s') => (Exit c, s')
    end.

Definition raise {S A} (e : exn) : M S A := fun s => (Raise e, s).

Definition sys_exit {S A} (code : Z) : M S A := fun s => (Exit code, s).

Definition lift {S A} (r : exn + A) : M S A :=
  match r with
  | inl e => raise e
  | inr a => mret a
  end.

(** [try: body / except Exception as e: handler e]. *)
Definition try_except {S A} (body : M S A) (handler : exn -> M S A) : M S A :=
  fun s =>
    match body s with
    | (Raise e, s') => handler e s'
    | r => r
    end.

(** [for x in l: body x]. *)
Fixpoint for_each {S A} (l : list A) (body : A -> M S unit) : M S unit :=
  match l with
  | [] => mret tt
  | x :: l' => body x ;; for_each l' body
  end.

(** [dict(zip(columns, row))]: a repeated key keeps its first position and
    takes the last value. *)
Fixpoint dict_set (k : string) (v : value) (d : list (string * value)) :
  list (string * value) :=
  match d with
  | [] => [(k, v)]
  | (k', v') :: d' =>
      if String.eqb k k' then (k', v) :: d' else (k', v') :: dict_set k v d'
  end.

Definition dict_zip (columns : list string) (r : row) : list (string * value) :=
  fold_left (fun d kv => dict_set (fst kv) (snd kv) d) (combine columns r) [].

(** ** The engine *)

Section Engine.

(** The driver.  [W] is everything outside the process (the servers and the
    connections to them), [H] names an open connection.  Each operation may
    change the world; [db_execute] answers with an exception, with no
    result set (a statement that returns no rows) or with a result set;
    [db_release] is what leaving [with conn:] does (commit or, when an
    exception is in flight, rollback, then close) and may raise when it
    commits. *)
Context {W H : Type}.
Variable db_connect : connect_args -> W -> (exn + H) * W.
Variable db_execute : H -> statement -> W -> (exn + option result_set) * W.
Variable db_release : H -> bool -> W -> option exn * W.

(** The state the script runs in: the world, the result set pending in the
    cursor in use, the statements sent so far and the records logged so
    far, both oldest first. *)
Record state : Type := {
  world : W;
  pending : option result_set;
  issued : list (H * statement);
  log : list record
}.

Definition logging (lv : level) (m : message) : M state unit :=
  fun s =>
    (Ok tt, {| world := world s; pending := pending s; issued := issued s;
               log := log s ++ [(lv, m)] |}).

Definition logging_info : message -> M state unit := logging INFO.
Definition logging_error : message -> M state unit := logging ERROR.

(** [psycopg.connect(...)]. *)
Definition psycopg_connect (args : connect_args) : M state H :=
  fun s =>
    let '(r, w) := db_connect args (world s) in
    let s' := {| world := w; pending := pending s; issued := issued s;
                 log := log s |} in
    match r with
    | inl e => (Raise e, s')
    | inr conn => (Ok conn, s')
    end.

(** [conn.cursor()]: a cursor with no result. *)
Definition conn_cursor (conn : H) : M state H :=
  fun s =>
    (Ok conn, {| world := world s; pending := None; issued := issued s;
                 log := log s |}).

(** [cursor.execute(...)]. *)
Definition cursor_execute (cursor : H) (stmt : statement) : M state unit :=
  fun s =>
    let '(r, w) := db_execute cursor stmt (world s) in
    let sent := issued s ++ [(cursor, stmt)] in
    match r with
    | inl e =>
        (Raise e, {| world := w; pending := None; issued := sent; log := log s |})
    | inr rs =>
        (Ok tt, {| world := w; pending := rs; issued := sent; log := log s |})
    end.

(** [cursor.fetchall()]: the remaining rows; raises when the last statement
    produced no result set. *)
Definition cursor_fetchall (cursor : H) : M state (list row) :=
  fun s =>
    match pending s with
    | None => (Raise ProgrammingError, s)
    | Some rs =>
        (Ok (rs_rows rs),
         {| world := world s;
            pending := Some {| rs_columns := rs_columns rs; rs_rows := [] |};
            issued := issued s; log := log s |})
    end.

(** [cursor.fetchone()]: the next row, or [None] when there is none. *)
Definition cursor_fetchone (cursor : H) : M state (option row) :=
  fun s =>
    match pending s with
    | None => (Raise ProgrammingError, s)
    | Some rs =>
        match rs_rows rs with
        | [] => (Ok None, s)
        | r :: rest =>
            (Ok (Some r),
             {| world := world s;
                pending := Some {| rs_columns := rs_columns rs; rs_rows := rest |};
                issued := issued s; log := log s |})
        end
    end.

(** [[desc.name for desc in cursor.description]]; the description is [None]
    when there is no result set. *)
Definition cursor_description_names (cursor : H) : M state (list string) :=
  fun s =>
    match pending s with
    | None => (Raise TypeError, s)
    | Some rs => (Ok (rs_columns rs), s)
    end.

(** [with conn: body]. *)
Definition with_connection {A} (conn : H) (body : M state A) : M state A :=
  fun s =>
    let leave (exceptional : bool) (s' : state) :=
      let '(r, w) := db_release conn exceptional (world s') in
      (r, {| world := w; pending := pending s'; issued := issued s';
             log := log s' |}) in
    match body s with
    | (Ok a, s') =>
        match leave false s' with
        | (None, s'') => (Ok a, s'')
        | (Some e, s'') => (Raise e, s'')
        end
    | (r, s') => (r, snd (leave true s'))
    end.

Definition create_connection (conn_config : value) : M state H :=
  try_except
    (host ← lift (Py.getitem conn_config "host");
     port ← lift (Py.getitem conn_config "port");
     dbname ← lift (Py.getitem conn_config "dbname");
     user ← lift (Py.getitem conn_config "user");
     password ← lift (Py.getitem conn_config "password");
     conn ← psycopg_connect
       {| ca_host := host; ca_port := port; ca_dbname := dbname;
          ca_user := user; ca_password := password |};
     logging_info MConnected;;
     schema ← lift (Py.get conn_config "schema" VNone);
     (if Py.truthy schema then
        cur ← conn_cursor conn;
        cursor_execute cur (SetSearchPath schema);;
        logging_info (MSearchPath schema)
      else mret tt);;
     mret conn)
    (fun e =>
       logging_error (MConnectFailed e);;
       sys_exit 1).

Definition run_printer (cursor : H) (query description : value) : M state unit :=
  logging_info MBanner;;
  logging_info (MRunningPrinter description);;
  logging_info (MQuery query);;
  try_except
    (cursor_execute cursor (UserQuery query);;
     rows ← cursor_fetchall cursor;
     columns ← cursor_description_names cursor;
     logging_info (MRowsReturned (length rows));;
     for_each rows (fun r => logging_info (MRow (dict_zip columns r))))
    (fun e => logging_error (MPrinterFailed e)).

(** [{row[0] for row in rows}]. *)
Fixpoint first_column_set (rows : list row) : exn + gset Py.key :=
  match rows with
  | [] => inr ∅
  | r :: rows' =>
      match Py.index0 r with
      | inl e => inl e
      | inr v =>
          match Py.key_of v with
          | inl e => inl e
          | inr k =>
              match first_column_set rows' with
              | inl e => inl e
              | inr ks => inr ({[ k ]} ∪ ks)
              end
          end
      end
  end.

(** [[t for t in required if t not in existing]]. *)
Fixpoint not_in (required : list value) (existing : gset Py.key) :
  exn + list value :=
  match required with
  | [] => inr []
  | t :: required' =>
      match Py.key_of t with
      | inl e => inl e
      | inr k =>
          match not_in required' existing with
          | inl e => inl e
          | inr missing =>
              inr (if decide (k ∈ existing) then missing else t :: missing)
          end
      end
  end.

(** [{tuple(x) for x in xs}]: every element is made a tuple, hashed and
    added, left to right. *)
Fixpoint tuple_set {A} (to_tuple : A -> exn + row) (xs : list A) :
  exn + gset (list Py.key) :=
  match xs with
  | [] => inr ∅
  | x :: xs' =>
      match to_tuple x with
      | inl e => inl e
      | inr r =>
          match Py.tuple_key r with
          | inl e => inl e
          | inr k =>
              match tuple_set to_tuple xs' with
              | inl e => inl e
              | inr ks => inr ({[ k ]} ∪ ks)
              end
          end
      end
  end.

(** [schema] is [None] when the caller leaves the parameter to its default,
    ['public']. *)
Definition run_table_exists (cursor : H) (required_tables : value)
  (schema : option value) : M state bool :=
  let schema := default (VStr "public") schema in
  logging_info MBanner;;
  logging_info (MRunningTableExists required_tables);;
  try_except
    (cursor_execute cursor (SelectBaseTables schema);;
     rows ← cursor_fetchall cursor;
     existing_tables ← lift (first_column_set rows);
     required ← lift (Py.iter required_tables);
     missing_tables ← lift (not_in required existing_tables);
     match missing_tables with
     | [] =>
         logging_info MAllTablesExist;;
         mret true
     | _ :: _ =>
         logging_error (MMissingTables missing_tables);;
         mret false
     end)
    (fun e =>
       logging_error (MTableExistsFailed e);;
       mret false).

Definition run_count_check (cursor : H) (query value_ op_str description : value) :
  M state bool :=
  logging_info MBanner;;
  logging_info (MRunningCountCheck description);;
  logging_info (MQuery query);;
  logging_info (MOperatorValue op_str value_);;
  op_func ← lift (OPERATORS_get op_str);
  match op_func with
  | None =>
      logging_error (MUnsupportedOperator op_str);;
      mret false
  | Some op_func =>
      try_except
        (cursor_execute cursor (UserQuery query);;
         result ← cursor_fetchone cursor;
         match result with
         | None =>
             logging_error MNoRows;;
             mret false
         | Some result =>
             actual_value ← lift (Py.index0 result);
             holds ← lift (call_op op_func actual_value value_);
             if holds : bool then
               logging_info (MCheckPassed actual_value op_str value_);;
               mret true
             else
               logging_error (MCheckFailed actual_value op_str value_);;
               mret false
         end)
        (fun e =>
           logging_error (MCountCheckFailed e);;
           mret false)
  end.

Definition run_includes_check (cursor : H) (query expected_values description : value) :
  M state bool :=
  logging_info MBanner;;
  logging_info (MRunningIncludesCheck description);;
  logging_info (MQuery query);;
  logging_info (MExpectedValues expected_values);;
  try_except
    (cursor_execute cursor (UserQuery query);;
     actual_rows ← cursor_fetchall cursor;
     actual_set ← lift (tuple_set inr actual_rows);
     expected ← lift (Py.iter expected_values);
     expected_set ← lift (tuple_set Py.iter expected);
     let missing := expected_set ∖ actual_set in
     if decide (missing = ∅) then
       logging_info MAllPresent;;
       mret true
     else
       logging_error (MMissingValues missing);;
       mret false)
    (fun e =>
       logging_error (MIncludesCheckFailed e);;
       mret false).

(** The body of [for validator in validations:] in [main]. *)
Definition main_validator (cur : H) (conn_config validator : value) : M state unit :=
  vtype ← lift (Py.get validator "type" VNone);
  if Py.eq vtype (VStr "PRINTER") then
    query ← lift (Py.getitem validator "query");
    description ← lift (Py.get validator "description" (VStr "No description"));
    run_printer cur query description
  else if Py.eq vtype (VStr "TABLE_EXISTS") then
    schema ← lift (Py.get conn_config "schema" (VStr "public"));
    required_tables ← lift (Py.get validator "required_tables" (VList []));
    run_table_exists cur required_tables (Some schema);;
    mret tt
  else if Py.eq vtype (VStr "COUNT_CHECK") then
    query ← lift (Py.get validator "query" VNone);
    value_ ← lift (Py.get validator "value" VNone);
    op_str ← lift (Py.get validator "operator" VNone);
    description ← lift (Py.get validator "description" (VStr "No description"));
    run_count_check cur query value_ op_str description;;
    mret tt
  else if Py.eq vtype (VStr "INCLUDES_CHECK") then
    query ← lift (Py.get validator "query" VNone);
    expected_values ← lift (Py.get validator "values" (VList []));
    description ← lift (Py.get validator "description" (VStr "No description"));
    run_includes_check cur query expected_values description;;
    mret tt
  else
    mret tt.

(** The body of [for db in config.get("databases", []):] in [main]. *)
Definition main_database (db : value) : M state unit :=
  conn_config ← lift (Py.getitem db "connection");
  validations ← lift (Py.get db "validation" (VList []));
  conn ← create_connection conn_config;
  with_connection conn
    (cur ← conn_cursor conn;
     validators ← lift (Py.iter validations);
     for_each validators (main_validator cur conn_config));;
  logging_info MConnectionClosed.

(** What opening and parsing the configuration file gives. *)
Inductive config_file : Type :=
| FileNotFoundError
| JSONDecodeError
| Loaded (config : value).

Definition main (file : config_file) : M state unit :=
  match file with
  | FileNotFoundError =>
      logging_error MConfigNotFound;;
      sys_exit 1
  | JSONDecodeError =>
      logging_error MInvalidJson;;
      sys_exit 1
  | Loaded config =>
      databases ← lift (Py.get config "databases" (VList []));
      dbs ← lift (Py.iter databases);
      for_each dbs main_database
  end.

End Engine.

Arguments world {W H} s.
Arguments pending {W H} s.
Arguments issued {W H} s.
Arguments log {W H} s.

(** ** A concrete server

    One host with two databases that accept connections, [shop] and
    [audit], and one that refuses them, [down].  The world is the list of
    the databases a connection was requested to, oldest first; a
    connection is named by its database.  The server knows three queries
    and rejects every other one. *)
Module Demo.

Definition W : Type := list string.
Definition H : Type := string.

Definition db_connect (args : connect_args) (w : W) : (exn + H) * W :=
  match ca_dbname args with
  | VStr "down" => (inl (DbError "connection refused"), w ++ ["down"])
  | VStr name => (inr name, w ++ [name])
  | _ => (inl TypeError, w)
  end.

Definition count_orders : value := VStr "SELECT count(*) FROM orders".
Definition list_users : value := VStr "SELECT id, name FROM users".
Definition no_orders : value := VStr "SELECT id FROM orders WHERE false".

Definition db_execute (conn : H) (stmt : statement) (w : W) :
  (exn + option result_set) * W :=
  match stmt with
  | SetSearchPath _ => (inr None, w)
  | SelectBaseTables (VStr "public") =>
      (inr (Some {| rs_columns := ["table_name"];
                    rs_rows := [[VStr "orders"]; [VStr "users"]] |}), w)
  | SelectBaseTables _ =>
      (inr (Some {| rs_columns := ["table_name"]; rs_rows := [] |}), w)
  | UserQuery (VStr "SELECT count(*) FROM orders") =>
      (inr (Some {| rs_columns := ["count"]; rs_rows := [[VInt 5]] |}), w)
  | UserQuery (VStr "SELECT id, name FROM users") =>
      (inr (Some {| rs_columns := ["id"; "name"];
                    rs_rows := [[VInt 1; VStr "a"]; [VInt 2; VStr "b"];
                                [VInt 1; VStr "a"]] |}), w)
  | UserQuery (VStr "SELECT id FROM orders WHERE false") =>
      (inr (Some {| rs_columns := ["id"]; rs_rows := [] |}), w)
  | UserQuery _ => (inl (DbError "syntax error"), w)
  end.

Definition db_release (conn : H) (exceptional : bool) (w : W) : option exn * W :=
  (None, w).

Definition connection (dbname : string) : value :=
  VDict [("host", VStr "localhost"); ("port", VInt 5432);
         ("dbname", VStr dbname); ("user", VStr "validator");
         ("password", VStr "secret")].

(** The state the script starts in. *)
Definition start : state (W := W) (H := H) :=
  {| world := []; pending := None; issued := []; log := [] |}.

(** Checks. *)
Definition count_orders_check (op_str : string) (target : Z) : value :=
  VDict [("type", VStr "COUNT_CHECK"); ("description", VStr "orders were migrated");
         ("query", count_orders); ("operator", VStr op_str);
         ("value", VInt target)].

Definition printer_without_query : value :=
  VDict [("type", VStr "PRINTER"); ("description", VStr "show the orders")].

Definition row_count_check : value :=
  VDict [("type", VStr "ROW_COUNT"); ("query", count_orders);
         ("value", VInt 5)].

(** A TABLE_EXISTS check that names a schema of its own, [audit]. *)
Definition audit_check : list (string * value) :=
  [("type", VStr "TABLE_EXISTS"); ("schema", VStr "audit");
   ("required_tables", VList [VStr "orders"])].

Definition table_exists_in_audit : value := VDict audit_check.

(** The descriptor of a connection to [shop] that sets the schema [sales]. *)
Definition sales_descriptor : list (string * value) :=
  [("host", VStr "localhost"); ("port", VInt 5432);
   ("dbname", VStr "shop"); ("user", VStr "validator");
   ("password", VStr "secret"); ("schema", VStr "sales")].

Definition sales_connection : value := VDict sales_descriptor.

(** Database entries: a connection and one COUNT_CHECK. *)
Definition entry (dbname : string) : list (string * value) :=
  [("connection", connection dbname);
   ("validation", VList [count_orders_check ">=" 3])].

(** A configuration of two databases, the first of which refuses
    connections. *)
Definition down_then_shop : value :=
  VDict [("databases", VList [VDict (entry "down"); VDict (entry "shop")])].

(** A configuration of three databases, the second of which refuses
    connections. *)
Definition shop_down_audit : list (string * value) :=
  [("databases",
    VList ([VDict (entry "shop")] ++ VDict (entry "down") :: [VDict (entry "audit")]))].

(** A server that has closed the connection: every statement fails. *)
Definition db_execute_down (conn : H) (stmt : statement) (w : W) :
  (exn + option result_set) * W :=
  (inl (DbError "server closed the connection"), w).

(** A server that answers every statement with the rows [rows]. *)
Definition db_execute_rows (rows : list row) (conn : H) (stmt : statement)
  (w : W) : (exn + option result_set) * W :=
  (inr (Some {| rs_columns := ["value"]; rs_rows := rows |}), w).

(** A connection descriptor with neither port nor password. *)
Definition descriptor_without_port : list (string * value) :=
  [("host", VStr "localhost"); ("dbname", VStr "shop");
   ("user", VStr "validator")].

(** A PRINTER and an INCLUDES_CHECK on the users. *)
Definition users_printer : value :=
  VDict [("type", VStr "PRINTER"); ("description", VStr "the users");
         ("query", list_users)].

Definition users_included : value :=
  VDict [("type", VStr "INCLUDES_CHECK"); ("query", list_users);
         ("values", VList [VList [VInt 1; VStr "a"]; VList [VInt 3; VStr "c"]])].

(** A COUNT_CHECK without an operator. *)
Definition count_check_without_operator : list (string * value) :=
  [("type", VStr "COUNT_CHECK"); ("query", count_orders); ("value", VInt 3)].

(** A configuration of two databases that accept connections. *)
Definition shop_then_audit : list (string * value) :=
  [("databases", VList [VDict (entry "shop"); VDict (entry "audit")])].

End Demo.

(** ** Vocabulary of the statements *)

(** The symbols of the registry. *)
Definition supported : list string := ["="; "!="; ">"; ">="; "<"; "<="].

(** *** The order of values

    What the comparisons of a COUNT_CHECK are measured against: the order
    of the numbers, of the strings and of the lists, stated without
    reference to how Python computes a comparison. *)

(** The rationals with the two infinities. *)
Inductive extended : Type :=
| minus_infinity
| rational (q : Q)
| plus_infinity.

Definition infinity (negative : bool) : extended :=
  if negative then minus_infinity else plus_infinity.

Definition sign (negative : bool) : Q := if negative then (-1)%Q else 1%Q.

(** The number a value stands for.  A NaN stands for none, and so does
    what is not of a numeric type. *)
Inductive stands_for : value -> extended -> Prop :=
| stands_for_true : stands_for (VBool true) (rational 1)
| stands_for_false : stands_for (VBool false) (rational 0)
| stands_for_int z : stands_for (VInt z) (rational (inject_Z z))
| stands_for_float n m e :
    stands_for (VFloat (FFinite n m e))
      (rational (sign n * inject_Z (Z.of_N m) * 2 ^ e))
| stands_for_float_inf n : stands_for (VFloat (FInf n)) (infinity n)
| stands_for_decimal n m e :
    stands_for (VDecimal (DFinite n m e))
      (rational (sign n * inject_Z (Z.of_N m) * 10 ^ e))
| stands_for_decimal_inf n : stands_for (VDecimal (DInf n)) (infinity n).

Definition ext_lt (x y : extended) : Prop :=
  match x, y with
  | minus_infinity, minus_infinity => False
  | minus_infinity, _ => True
  | rational p, rational q => (p < q)%Q
  | rational _, plus_infinity => True
  | _, _ => False
  end.

Definition ext_eq (x y : extended) : Prop :=
  match x, y with
  | minus_infinity, minus_infinity => True
  | rational p, rational q => (p == q)%Q
  | plus_infinity, plus_infinity => True
  | _, _ => False
  end.

(** The lexicographic order of strings. *)
Inductive str_less : string -> string -> Prop :=
| str_less_nil c t : str_less "" (String c t)
| str_less_head c d s t :
    (N_of_ascii c < N_of_ascii d)%N -> str_less (String c s) (String d t)
| str_less_tail c s t : str_less s t -> str_less (String c s) (String c t).

(** Two values are the same: both are [None], they stand for the same
    number, they are the same string, or they are lists of the same
    length whose elements are the same one by one. *)
Inductive same : value -> value -> Prop :=
| same_none : same VNone VNone
| same_numbers a b x y :
    stands_for a x -> stands_for b y -> ext_eq x y -> same a b
| same_strings s : same (VStr s) (VStr s)
| same_nil : same (VList []) (VList [])
| same_cons x y xs ys :
    same x y -> same (VList xs) (VList ys) ->
    same (VList (x :: xs)) (VList (y :: ys)).

(** A value is less than another: as numbers, as strings, or as lists, in
    the lexicographic order. *)
Inductive less : value -> value -> Prop :=
| less_numbers a b x y :
    stands_for a x -> stands_for b y -> ext_lt x y -> less a b
| less_strings s t : str_less s t -> less (VStr s) (VStr t)
| less_nil y ys : less (VList []) (VList (y :: ys))
| less_head x y xs ys : less x y -> less (VList (x :: xs)) (VList (y :: ys))
| less_tail x y xs ys :
    same x y -> less (VList xs) (VList ys) ->
    less (VList (x :: xs)) (VList (y :: ys)).

(** Two values are of a comparable type: two numbers, two strings, or two
    lists whose elements at the same position are. *)
Inductive comparable : value -> value -> Prop :=
| comparable_numbers a b x y : stands_for a x -> stands_for b y -> comparable a b
| comparable_strings s t : comparable (VStr s) (VStr t)
| comparable_nil_l ys : comparable (VList []) (VList ys)
| comparable_nil_r xs : comparable (VList xs) (VList [])
| comparable_cons x y xs ys :
    comparable x y -> comparable (VList xs) (VList ys) ->
    comparable (VList (x :: xs)) (VList (y :: ys)).

(** The relation a symbol of the registry denotes. *)
Inductive denotes : string -> value -> value -> Prop :=
| denotes_eq a b : same a b -> denotes "=" a b
| denotes_ne a b : ~ same a b -> denotes "!=" a b
| denotes_gt a b : less b a -> denotes ">" a b
| denotes_ge a b : less b a \/ same a b -> denotes ">=" a b
| denotes_lt a b : less a b -> denotes "<" a b
| denotes_le a b : less a b \/ same a b -> denotes "<=" a b.



(** The UTF-8 encoding of one code point: a byte that starts a code point,
    followed by bytes that continue it. *)
Definition code_point (s : string) : Prop :=
  match s with
  | EmptyString => False
  | String c rest =>
      Py.continuation c = false /\
      forallb Py.continuation (list_ascii_of_string rest) = true
  end.

(** The check kinds [main] knows. *)
Definition known_kinds : list string :=
  ["PRINTER"; "TABLE_EXISTS"; "COUNT_CHECK"; "INCLUDES_CHECK"].

(** [s] after the records [rs] were logged and nothing else happened. *)
Definition logged {W H} (s : state (W := W) (H := H)) (rs : list record) :
  state (W := W) (H := H) :=
  {| world := world s; pending := pending s; issued := issued s;
     log := log s ++ rs |}.

(** The records every COUNT_CHECK starts with. *)
Definition count_check_preamble (query value_ op_str description : value) :
  list record :=
  [ (INFO, MBanner);
    (INFO, MRunningCountCheck description);
    (INFO, MQuery query);
    (INFO, MOperatorValue op_str value_) ].

(** The rows the catalog query returns when the base tables of the schema
    are [existing]: one row per table, holding its name. *)
Definition catalog_rows (existing : list string) : list row :=
  map (fun t => [VStr t]) existing.

(** [keys] are the tuples the elements of [xs] hash to, in order.  Two
    elements are the same member of a set exactly when their keys are
    equal. *)
Definition hashes_to {A} (to_tuple : A -> exn + row) (xs : list A)
  (keys : list (list Py.key)) : Prop :=
  Forall2 (fun x k => exists r, to_tuple x = inr r /\ Py.tuple_key r = inr k)
    xs keys.

(** [v] can be hashed. *)
Definition hashable (v : value) : Prop := exists k, Py.key_of v = inr k.

(** A check whose fields [main] can read: a PRINTER has its query and the
    operator of a COUNT_CHECK, when given, can be hashed. *)
Definition well_formed (validator : value) : Prop :=
  exists v, validator = VDict v /\
    (Py.assoc "type" v = Some (VStr "PRINTER") -> is_Some (Py.assoc "query" v)) /\
    (Py.assoc "type" v = Some (VStr "COUNT_CHECK") ->
     hashable (default VNone (Py.assoc "operator" v))).

(** The arguments [create_connection] passes to [psycopg.connect] when the
    connection descriptor has the five keys. *)
Definition connect_arguments (conn_config : list (string * value)) :
  option connect_args :=
  host ← Py.assoc "host" conn_config;
  port ← Py.assoc "port" conn_config;
  dbname ← Py.assoc "dbname" conn_config;
  user ← Py.assoc "user" conn_config;
  password ← Py.assoc "password" conn_config;
  Some {| ca_host := host; ca_port := port; ca_dbname := dbname;
          ca_user := user; ca_password := password |}.

(** The schema of a TABLE_EXISTS check as the specification words it: the
    schema of the check if it has one, otherwise the schema of the
    database entry, otherwise ['public']. *)
Definition schema_by_precedence (validator conn_config : list (string * value)) :
  value :=
  match Py.assoc "schema" validator with
  | Some schema => schema
  | None => default (VStr "public") (Py.assoc "schema" conn_config)
  end.

(** The records every PRINTER, TABLE_EXISTS and INCLUDES_CHECK starts
    with. *)
Definition printer_preamble (query description : value) : list record :=
  [ (INFO, MBanner); (INFO, MRunningPrinter description); (INFO, MQuery query) ].

Definition table_exists_preamble (required_tables : value) : list record :=
  [ (INFO, MBanner); (INFO, MRunningTableExists required_tables) ].

Definition includes_check_preamble (query expected_values description : value) :
  list record :=
  [ (INFO, MBanner);
    (INFO, MRunningIncludesCheck description);
    (INFO, MQuery query);
    (INFO, MExpectedValues expected_values) ].

(** The symbols of the registry that order their operands. *)
Definition ordering : list string := [">"; ">="; "<"; "<="].

(** The keys [create_connection] reads with a subscript, in the order it
    reads them. *)
Definition descriptor_keys : list string :=
  ["host"; "port"; "dbname"; "user"; "password"].

(** A database entry [main] can process with the driver at hand: it has a
    connection descriptor with the five keys, the server accepts the
    connection whatever the world, and its checks, if any, are a list of
    well-formed checks. *)
Definition entry_ok {W H} (db_connect : connect_args -> W -> (exn + H) * W)
  (db : value) : Prop :=
  exists (d c : list (string * value)) (args : connect_args)
         (validators : list value),
    db = VDict d /\
    Py.assoc "connection" d = Some (VDict c) /\
    connect_arguments c = Some args /\
    (forall w, exists h w', db_connect args w = (inr h, w')) /\
    Py.iter (default (VList []) (Py.assoc "validation" d)) = inr validators /\
    Forall well_formed validators.

(** The string made of the given characters, in order. *)
Definition join (characters : list string) : string :=
  foldr String.append "" characters.

(** The record in which an executor announces the check it starts. *)
Definition is_announcement (m : message) : bool :=
  match m with
  | MRunningPrinter _ | MRunningTableExists _ | MRunningCountCheck _
  | MRunningIncludesCheck _ => true
  | _ => false
  end.

(** The announcements among the records of a log, oldest first. *)
Definition announcements (l : list record) : list message :=
  omap (fun r : record => if is_announcement (snd r) then Some (snd r) else None) l.

(** The announcement a check is due: that of the executor of its kind, with
    the description or the tables of the check; none when the kind is not
    one of the four. *)
Definition announcement (validator : value) : option message :=
  match validator with
  | VDict v =>
      let description := default (VStr "No description") (Py.assoc "description" v) in
      match Py.assoc "type" v with
      | Some (VStr kind) =>
          if String.eqb kind "PRINTER" then Some (MRunningPrinter description)
          else if String.eqb kind "TABLE_EXISTS" then
            Some (MRunningTableExists
                    (default (VList []) (Py.assoc "required_tables" v)))
          else if String.eqb kind "COUNT_CHECK" then
            Some (MRunningCountCheck description)
          else if String.eqb kind "INCLUDES_CHECK" then
            Some (MRunningIncludesCheck description)
          else None
      | _ => None
      end
  | _ => None
  end.

(** ** Proof tools *)

Ltac run_monad :=
  unfold mbind, M_bind, mret, M_ret, logging_info, logging_error, logging,
    try_except, cursor_execute, cursor_fetchone, cursor_fetchall,
    cursor_description_names, conn_cursor, logged;
  simpl.

Ltac case_lift :=
  repeat (match goal with
          | |- context [lift ?x] => destruct x; simpl
          | |- context [match ?x with [] => _ | _ :: _ => _ end] =>
              destruct x; simpl
          | |- context [match ?x with Some _ => _ | None => _ end] =>
              destruct x; simpl
          | |- context [if ?x then _ else _] => destruct x; simpl
          end).

Ltac case_all :=
  repeat (match goal with
          | |- context [match ?x with inl _ => _ | inr _ => _ end] =>
              destruct x; simpl
          | |- context [match ?x with [] => _ | _ :: _ => _ end] =>
              destruct x; simpl
          | |- context [match ?x with Some _ => _ | None => _ end] =>
              destruct x; simpl
          | |- context [if ?x then _ else _] => destruct x; simpl
          end).

(** Close "the statements sent are those of before and [sent]" with no
    statement and with one. *)
Ltac none_sent := exists []; split; [by rewrite app_nil_r | simpl; lia].
Ltac one_sent := eexists [_]; split; [simpl; reflexivity | simpl; lia].

(** Splits a descriptor that has the five keys into its values. *)
Ltac split_descriptor Hargs :=
  unfold connect_arguments in Hargs;
  repeat (match type of Hargs with
          | context [Py.assoc ?k ?c] =>
              let E := fresh "E" in
              destruct (Py.assoc k c) eqn:E; [| discriminate Hargs]
          end);
  simpl in Hargs; injection Hargs as <-.

(** Closes [x ∉ l] for a literal [x] and a list [l] of literals. *)
Ltac not_in_list :=
  let Hin := fresh "Hin" in
  intros Hin;
  repeat (apply elem_of_cons in Hin as [Hin | Hin]; [discriminate Hin |]);
  by apply elem_of_nil in Hin.

(** Closes "the check returns and its log has one more announcement". *)
Ltac announced :=
  eexists; (split; [reflexivity |]); unfold announcements; simpl;
  rewrite ?omap_app; simpl; rewrite <- ?app_assoc, ?app_nil_r; reflexivity.


(** What a number of Python holds, against the number it stands for. *)
Definition agrees (n : Py.number) (x : extended) : Prop :=
  match n, x with
  | Py.Finite p, rational q => (p == q)%Q
  | Py.Infinite true, minus_infinity => True
  | Py.Infinite false, plus_infinity => True
  | _, _ => False
  end.

(** The three-way comparison of two extended rationals, and what [==] and
    the four order comparisons make of a three-way comparison. *)
Definition ext_compare (x y : extended) : comparison :=
  match x, y with
  | minus_infinity, minus_infinity => Eq
  | minus_infinity, _ => Datatypes.Lt
  | rational p, minus_infinity => Datatypes.Gt
  | rational p, rational q => (p ?= q)%Q
  | rational p, plus_infinity => Datatypes.Lt
  | plus_infinity, plus_infinity => Eq
  | plus_infinity, _ => Datatypes.Gt
  end.

Definition order_c (o : Py.order) (c : comparison) : bool :=
  match o, c with
  | Py.Lt, Datatypes.Lt => true
  | Py.Le, (Datatypes.Lt | Eq) => true
  | Py.Gt, Datatypes.Gt => true
  | Py.Ge, (Datatypes.Gt | Eq) => true
  | _, _ => false
  end.

Definition is_eq (c : comparison) : bool :=
  match c with
  | Eq => true
  | _ => false
  end.


(** ** Python objects and the registry *)

Lemma eq_VStr (v : value) (k : string) : Py.eq v (VStr k) = true <-> v = VStr k.
Proof.
  destruct v as [| [] | | [] | [] | s | |]; simpl; try (split; discriminate).
  rewrite String.eqb_eq. split; congruence.
Qed.

Lemma eq_VStr_false (v : value) (k : string) :
  v ≠ VStr k -> Py.eq v (VStr k) = false.
Proof. intros Hne. apply not_true_iff_false. by rewrite eq_VStr. Qed.

(** *** The code points of a string *)

Lemma code_points_continued (a : ascii) (t s : string) :
  forallb Py.continuation (list_ascii_of_string t) = true ->
  Py.continued s = false ->
  Py.code_points (String a (t ++ s)) = String a t :: Py.code_points s.
Proof.
  revert a. induction t as [| b t IH]; intros a Ht Hs.
  - change (Py.code_points (String a ("" ++ s)))
      with (match Py.code_points s with
            | p :: ps =>
                if Py.continued s then String a p :: ps
                else String a EmptyString :: p :: ps
            | [] => [String a EmptyString]
            end).
    rewrite Hs. by destruct (Py.code_points s).
  - simpl in Ht. apply andb_true_iff in Ht as [Hb Ht].
    change (Py.code_points (String a (String b t ++ s)))
      with (match Py.code_points (String b (t ++ s)) with
            | p :: ps =>
                if Py.continued (String b (t ++ s)) then String a p :: ps
                else String a EmptyString :: p :: ps
            | [] => [String a EmptyString]
            end).
    rewrite (IH b Ht Hs). simpl. by rewrite Hb.
Qed.

Lemma join_not_continued (characters : list string) :
  Forall code_point characters -> Py.continued (join characters) = false.
Proof.
  destruct 1 as [| c cs Hc _]; [done |].
  destruct c as [| a t]; [done |]. simpl. by destruct Hc.
Qed.

(** A string made of code points is read back as these code points. *)
Lemma code_points_join (characters : list string) :
  Forall code_point characters -> Py.code_points (join characters) = characters.
Proof.
  induction 1 as [| c cs Hc Hcs IH]; [done |].
  destruct c as [| a t]; [done |]. destruct Hc as [_ Ht].
  change (join (String a t :: cs)) with (String a (t ++ join cs)).
  rewrite code_points_continued, IH; [done | done |].
  by apply join_not_continued.
Qed.

(** *** Numbers, strings and lists in order *)

Lemma scaled_sign (base : Z) (n : bool) (m : N) (e : Z) :
  (Py.scaled base n m e == sign n * inject_Z (Z.of_N m) * inject_Z base ^ e)%Q.
Proof.
  unfold Py.scaled, sign. destruct n; [| ring].
  rewrite inject_Z_opp. ring.
Qed.

Lemma num_of_stands_for (v : value) (x : extended) :
  stands_for v x ->
  exists n, Py.num_of v = Some n /\ agrees n x /\ Py.is_nan v = false.
Proof.
  destruct 1; simpl; eexists; (split; [reflexivity |]); (split; [| reflexivity]);
    simpl; try reflexivity; try apply scaled_sign.
  all: by destruct n.
Qed.

Lemma stands_for_unique (v : value) (x y : extended) :
  stands_for v x -> stands_for v y -> x = y.
Proof. destruct 1; inversion 1; congruence. Qed.

Lemma eq_number (a b : value) (x : extended) :
  stands_for a x ->
  Py.eq a b =
    match Py.num_of a, Py.num_of b with
    | Some x, Some y => Py.eq_num x y
    | _, _ => false
    end.
Proof. by destruct 1. Qed.

Lemma compare_number (o : Py.order) (a b : value) (x : extended) :
  stands_for a x ->
  Py.compare o a b =
    match Py.num_of a, Py.num_of b with
    | Some x, Some y =>
        if (Py.is_decimal a || Py.is_decimal b) && (Py.is_nan a || Py.is_nan b)
        then inl InvalidOperation
        else inr (Py.order_num o x y)
    | _, _ => inl TypeError
    end.
Proof. by destruct 1. Qed.

Lemma identical_number (a b : value) (x : extended) :
  stands_for a x -> Py.identical a b = false.
Proof. by destruct 1. Qed.

Lemma ext_compare_eq (x y : extended) : ext_compare x y = Eq <-> ext_eq x y.
Proof.
  destruct x, y; simpl; try (split; [discriminate | tauto]); try tauto.
  by rewrite <- Qeq_alt.
Qed.

Lemma ext_compare_lt (x y : extended) :
  ext_compare x y = Datatypes.Lt <-> ext_lt x y.
Proof.
  destruct x, y; simpl; try (split; [discriminate | tauto]); tauto.
Qed.

Lemma ext_compare_gt (x y : extended) :
  ext_compare x y = Datatypes.Gt <-> ext_lt y x.
Proof.
  destruct x, y; simpl; try (split; [discriminate | tauto]); try tauto.
  by rewrite <- Qgt_alt.
Qed.

Lemma num_agrees (nx ny : Py.number) (x y : extended) :
  agrees nx x -> agrees ny y ->
  Py.eq_num nx ny = is_eq (ext_compare x y) /\
  Py.eq_num ny nx = is_eq (ext_compare x y) /\
  Py.lt_num nx ny = order_c Py.Lt (ext_compare x y) /\
  Py.lt_num ny nx = order_c Py.Gt (ext_compare x y).
Proof.
  destruct nx as [p | [] |], x as [| p' |]; simpl; try tauto;
    destruct ny as [q | [] |], y as [| q' |]; simpl; try tauto.
  intros Hp Hq. rewrite <- Hp, <- Hq.
  rewrite (Qeq_bool_comm q p).
  rewrite <- (Qcompare_antisym p q).
  destruct (Qcompare_spec p q) as [He | Hl | Hg]; simpl.
  - by rewrite (Qeq_eq_bool _ _ He).
  - assert (Qeq_bool p q = false) as ->; [| done].
    apply not_true_iff_false. intros He%Qeq_bool_eq.
    rewrite He in Hl. by apply Qlt_irrefl in Hl.
  - assert (Qeq_bool p q = false) as ->; [| done].
    apply not_true_iff_false. intros He%Qeq_bool_eq.
    rewrite He in Hg. by apply Qlt_irrefl in Hg.
Qed.

Lemma compare_numbers (a b : value) (x y : extended) :
  stands_for a x -> stands_for b y ->
  Py.identical a b = false /\
  Py.eq a b = is_eq (ext_compare x y) /\
  forall o, Py.compare o a b = inr (order_c o (ext_compare x y)).
Proof.
  intros Ha Hb.
  destruct (num_of_stands_for a x Ha) as (nx & Hnx & Hax & Hnan_a).
  destruct (num_of_stands_for b y Hb) as (ny & Hny & Hby & Hnan_b).
  destruct (num_agrees nx ny x y Hax Hby) as (He & He' & Hl & Hg).
  split; [by eapply identical_number |]. split.
  - by rewrite (eq_number a b x Ha), Hnx, Hny.
  - intros o. rewrite (compare_number o a b x Ha), Hnx, Hny, Hnan_a, Hnan_b.
    rewrite orb_false_r, andb_false_r. f_equal.
    destruct o; simpl; rewrite ?Hl, ?Hg, ?He, ?He';
      by destruct (ext_compare x y).
Qed.

Lemma str_compare_refl (s : string) : String.compare s s = Eq.
Proof.
  induction s as [| c s IH]; simpl; [done |].
  unfold Ascii.compare. by rewrite N.compare_refl.
Qed.

Lemma str_compare_eq (s t : string) : String.compare s t = Eq <-> s = t.
Proof.
  split; [apply String.compare_eq_iff | intros ->; apply str_compare_refl].
Qed.

Lemma str_compare_lt (s t : string) :
  String.compare s t = Datatypes.Lt <-> str_less s t.
Proof.
  revert t. induction s as [| c s IH]; intros [| d t]; simpl.
  - split; [discriminate | inversion 1].
  - split; [constructor | done].
  - split; [discriminate | inversion 1].
  - unfold Ascii.compare.
    destruct (N.compare_spec (N_of_ascii c) (N_of_ascii d)) as [He | Hl | Hg].
    + apply (f_equal ascii_of_N) in He. rewrite !ascii_N_embedding in He.
      subst d. rewrite IH. split; [by constructor |].
      inversion 1; subst; [lia | done].
    + split; [by constructor | done].
    + split; [discriminate |]. inversion 1; subst; lia.
Qed.

Lemma str_compare_gt (s t : string) :
  String.compare s t = Datatypes.Gt <-> str_less t s.
Proof.
  rewrite <- str_compare_lt, (String.compare_antisym s t).
  by destruct (String.compare t s).
Qed.

Lemma compare_strings (s t : string) :
  Py.eq (VStr s) (VStr t) = is_eq (String.compare s t) /\
  forall o, Py.compare o (VStr s) (VStr t) = inr (order_c o (String.compare s t)).
Proof.
  split.
  - simpl. destruct (String.eqb_spec s t) as [-> | Hne].
    + by rewrite str_compare_refl.
    + destruct (String.compare s t) eqn:E; [| done | done].
      by apply str_compare_eq in E.
  - intros o. simpl. f_equal. unfold Py.order_str, String.ltb, String.leb.
    destruct o; try done; rewrite (String.compare_antisym t s);
      by destruct (String.compare s t).
Qed.

Lemma eq_cons (x y : value) (xs ys : list value) :
  Py.eq (VList (x :: xs)) (VList (y :: ys)) =
    (Py.identical x y || Py.eq x y) && Py.eq (VList xs) (VList ys).
Proof. reflexivity. Qed.

Lemma compare_cons (o : Py.order) (x y : value) (xs ys : list value) :
  Py.compare o (VList (x :: xs)) (VList (y :: ys)) =
    if Py.identical x y || Py.eq x y then Py.compare o (VList xs) (VList ys)
    else Py.compare o x y.
Proof. reflexivity. Qed.

Lemma same_sym (a b : value) : same a b -> same b a.
Proof.
  induction 1; try by constructor.
  eapply same_numbers; [done | done |].
  destruct x, y; simpl in *; done.
Qed.

(** How two comparable values compare: what [==] and the four order
    comparisons answer is read off one three-way comparison, which tells
    the relation the values are in. *)
Lemma compare_comparable (a b : value) :
  comparable a b ->
  exists c : comparison,
    Py.identical a b = false /\
    Py.eq a b = is_eq c /\
    (forall o, Py.compare o a b = inr (order_c o c)) /\
    (c = Eq <-> same a b) /\
    (c = Datatypes.Lt <-> less a b) /\
    (c = Datatypes.Gt <-> less b a).
Proof.
  induction 1 as [a b x y Ha Hb | s t | ys | xs | x y xs ys _ IHh _ IHt].
  - exists (ext_compare x y).
    destruct (compare_numbers a b x y Ha Hb) as (Hi & He & Hc).
    split; [done |]. split; [done |]. split; [done |].
    rewrite ext_compare_eq, ext_compare_lt, ext_compare_gt.
    split; [| split]; (split; [intros Hx; econstructor; eassumption |]).
    + inversion 1; subst; try (by inversion Ha).
      by rewrite (stands_for_unique _ _ _ Ha H0), (stands_for_unique _ _ _ Hb H1).
    + inversion 1; subst; try (by inversion Ha).
      by rewrite (stands_for_unique _ _ _ Ha H0), (stands_for_unique _ _ _ Hb H1).
    + inversion 1; subst; try (by inversion Ha).
      by rewrite (stands_for_unique _ _ _ Ha H1), (stands_for_unique _ _ _ Hb H0).
  - exists (String.compare s t).
    destruct (compare_strings s t) as (He & Hc).
    split; [done |]. split; [done |]. split; [done |].
    rewrite str_compare_eq, str_compare_lt, str_compare_gt.
    split; [| split]; split.
    + intros ->. constructor.
    + inversion 1; subst; [by inversion H0 | done].
    + by constructor.
    + inversion 1; subst; [by inversion H0 | done].
    + by constructor.
    + inversion 1; subst; [by inversion H0 | done].
  - destruct ys as [| y ys].
    + exists Eq. repeat split; try done; try (by destruct o); try constructor.
      all: inversion 1; subst; by inversion H0.
    + exists Datatypes.Lt. repeat split; try done; try (by destruct o);
        try constructor.
      all: inversion 1; subst; by inversion H0.
  - destruct xs as [| x xs].
    + exists Eq. repeat split; try done; try (by destruct o); try constructor.
      all: inversion 1; subst; by inversion H0.
    + exists Datatypes.Gt. repeat split; try done; try (by destruct o);
        try constructor.
      all: inversion 1; subst; by inversion H0.
  - destruct IHh as (ch & Hih & Heh & Hch & Hsh & Hlh & Hgh).
    destruct IHt as (ct & _ & Het & Hct & Hst & Hlt & Hgt).
    exists (match ch with Eq => ct | _ => ch end).
    split; [done |]. split; [| split].
    + rewrite eq_cons, Hih, Heh, Het. by destruct ch.
    + intros o. rewrite compare_cons, Hih, Heh, Hct, Hch. by destruct ch.
    + assert (Hsym : same y x <-> same x y) by (split; apply same_sym).
      split; [| split]; split.
      * intros Hc. destruct ch; try done. constructor; [by apply Hsh | by apply Hst].
      * inversion 1; subst; [by inversion H0 |].
        apply Hsh in H3 as ->. by apply Hst.
      * intros Hc. destruct ch; try done.
        -- apply less_tail; [by apply Hsh | by apply Hlt].
        -- apply less_head. by apply Hlh.
      * inversion 1; subst; [by inversion H0 | |].
        -- by apply Hlh in H1 as ->.
        -- apply Hsh in H3 as ->. by apply Hlt.
      * intros Hc. destruct ch; try done.
        -- apply less_tail; [by apply Hsym, Hsh | by apply Hgt].
        -- apply less_head. by apply Hgh.
      * inversion 1; subst; [by inversion H0 | |].
        -- by apply Hgh in H1 as ->.
        -- apply Hsym, Hsh in H3 as ->. by apply Hgt.
Qed.

Lemma OPERATORS_get_supported (s : string) :
  s ∈ supported -> exists f, OPERATORS_get (VStr s) = inr (Some f).
Proof.
  unfold supported. intros Hs.
  repeat (apply elem_of_cons in Hs as [-> | Hs]); [.. | by apply elem_of_nil in Hs].
  all: by eexists.
Qed.

Lemma registry_denotes (s : string) (a b : value) :
  s ∈ supported -> comparable a b ->
  exists f passed,
    OPERATORS_get (VStr s) = inr (Some f) /\
    call_op f a b = inr passed /\
    (passed = true <-> denotes s a b).
Proof.
  unfold supported. intros Hs Hab.
  destruct (compare_comparable a b Hab) as (c & _ & He & Hc & Hsame & Hless & Hmore).
  repeat (apply elem_of_cons in Hs as [-> | Hs]); [.. | by apply elem_of_nil in Hs].
  all: eexists; eexists; split; [reflexivity |]; simpl; rewrite ?He, ?Hc;
    (split; [reflexivity |]).
  - split.
    + intros Hx. constructor. apply Hsame. by destruct c.
    + inversion 1; subst. apply Hsame in H0 as ->. done.
  - split.
    + intros Hx. constructor. intros Hs%Hsame. by subst c.
    + inversion 1; subst. destruct c; try done. destruct H0. by apply Hsame.
  - split.
    + intros Hx. constructor. apply Hmore. by destruct c.
    + inversion 1; subst. apply Hmore in H0 as ->. done.
  - split.
    + intros Hx. constructor. destruct c; try done.
      * right. by apply Hsame.
      * left. by apply Hmore.
    + inversion 1; subst. destruct H0 as [->%Hmore | ->%Hsame]; done.
  - split.
    + intros Hx. constructor. apply Hless. by destruct c.
    + inversion 1; subst. apply Hless in H0 as ->. done.
  - split.
    + intros Hx. constructor. destruct c; try done.
      * right. by apply Hsame.
      * left. by apply Hless.
    + inversion 1; subst. destruct H0 as [->%Hless | ->%Hsame]; done.
Qed.

(** *** The registry *)

Lemma OPERATORS_get_unsupported (s : string) :
  s ∉ supported -> OPERATORS_get (VStr s) = inr None.
Proof.
  intros Hs. unfold OPERATORS_get. simpl. f_equal.
  apply not_elem_of_list_to_map. exact Hs.
Qed.

Lemma OPERATORS_get_hashable (v : value) :
  hashable v -> exists f, OPERATORS_get v = inr f.
Proof. intros [k Hk]. unfold OPERATORS_get. rewrite Hk. destruct k; eauto. Qed.

(** An object that cannot be hashed makes the lookup itself raise. *)
Lemma OPERATORS_get_unhashable (l : list value) :
  OPERATORS_get (VList l) = inl TypeError.
Proof. reflexivity. Qed.

(** ** Sets of table names and of tuples *)

Lemma first_column_set_names (existing : list string) :
  exists S : gset Py.key,
    first_column_set (catalog_rows existing) = inr S /\
    forall t, Py.KStr t ∈ S <-> t ∈ existing.
Proof.
  induction existing as [| x xs (S & HS & Hin)]; simpl.
  - exists ∅. split; [done |]. intros t. set_solver.
  - rewrite HS. eexists. split; [done |]. intros t.
    rewrite elem_of_union, elem_of_singleton, elem_of_cons, Hin.
    split; (intros [Heq | ?]; [left | by right]); congruence.
Qed.

Lemma not_in_names (required existing : list string) (S : gset Py.key) :
  (forall t, Py.KStr t ∈ S <-> t ∈ existing) ->
  not_in (map VStr required) S =
    inr (map VStr (filter (fun t => t ∉ existing) required)).
Proof.
  intros Hin. induction required as [| t ts IH]; simpl; [done |].
  rewrite IH. rewrite filter_cons.
  destruct (decide (Py.KStr t ∈ S)) as [Hk | Hk]; rewrite Hin in Hk;
    destruct (decide (t ∉ existing)); done.
Qed.

Lemma filter_missing_nil (required existing : list string) :
  filter (fun t => t ∉ existing) required = [] <->
  (list_to_set required : gset string) ∖ list_to_set existing = ∅.
Proof.
  rewrite elem_of_equiv_empty_L. split.
  - intros Hnil t. rewrite elem_of_difference, !elem_of_list_to_set.
    intros [Hreq Hex].
    assert (Hin : t ∈ filter (fun t => t ∉ existing) required)
      by (by apply list_elem_of_filter).
    rewrite Hnil in Hin. by apply elem_of_nil in Hin.
  - intros Hempty. apply elem_of_nil_inv.
    intros t [Hex Hreq]%list_elem_of_filter.
    apply (Hempty t). by rewrite elem_of_difference, !elem_of_list_to_set.
Qed.

Lemma tuple_set_hashes_to {A} (to_tuple : A -> exn + row) (xs : list A)
  (keys : list (list Py.key)) :
  hashes_to to_tuple xs keys -> tuple_set to_tuple xs = inr (list_to_set keys).
Proof.
  induction 1 as [| x k xs keys (r & Hr & Hk) _ IH]; simpl; [done |].
  by rewrite Hr, Hk, IH.
Qed.



(** *** Keys and what they identify *)












(** *** Announcements *)

Lemma announcements_app (l1 l2 : list record) :
  announcements (l1 ++ l2) = announcements l1 ++ announcements l2.
Proof. apply omap_app. Qed.

Lemma announcements_rows (columns : list string) (rows : list row) :
  announcements (map (fun r => (INFO, MRow (dict_zip columns r))) rows) = [].
Proof. by induction rows. Qed.

(** ** Loops *)

Lemma for_each_returns {S A} (body : A -> M S unit) (l : list A) :
  (forall x s, x ∈ l -> exists s', body x s = (Ok tt, s')) ->
  forall s, exists s', for_each l body s = (Ok tt, s').
Proof.
  induction l as [| x l IH]; intros Hbody s; simpl.
  - by eexists.
  - destruct (Hbody x s) as [s1 Hs1]; [by left |].
    unfold mbind, M_bind. rewrite Hs1. apply IH.
    intros y s2 Hy. apply Hbody. by right.
Qed.

Lemma for_each_app {S A} (body : A -> M S unit) (l1 l2 : list A) (s : S) :
  for_each (l1 ++ l2) body s =
    match for_each l1 body s with
    | (Ok _, s') => for_each l2 body s'
    | r => r
    end.
Proof.
  revert s. induction l1 as [| x l1 IH]; intros s; simpl; [done |].
  unfold mbind, M_bind. destruct (body x s) as [[[] | e | c] s1]; auto.
Qed.

(** ** The executors *)

Section Executors.

Context {W H : Type}.
Variable db_execute : H -> statement -> W -> (exn + option result_set) * W.

Abbreviation st := (state (W := W) (H := H)).

(** *** PRINTER *)

(** Whatever the server answers, [run_printer] returns. *)
Lemma run_printer_returns (cursor : H) (query description : value) (s : st) :
  exists s', run_printer db_execute cursor query description s = (Ok tt, s').
Proof.
  unfold run_printer. run_monad.
  destruct (db_execute _ _ _) as [[e | [rs |]] w]; simpl; eauto.
  match goal with |- context [for_each ?l ?f ?s0] =>
    destruct (fun Hf => for_each_returns f l Hf s0) as [s' ->]; eauto end.
Qed.

(** *** TABLE_EXISTS *)

(** Whatever the server answers, [run_table_exists] returns, having sent
    the catalog query for the schema it was given and nothing else. *)
Lemma run_table_exists_issues (cursor : H) (required_tables schema : value)
  (s : st) :
  exists (b : bool) (s' : st),
    run_table_exists db_execute cursor required_tables (Some schema) s =
      (Ok b, s') /\
    issued s' = issued s ++ [(cursor, SelectBaseTables schema)].
Proof.
  unfold run_table_exists. run_monad.
  destruct (db_execute _ _ _) as [[e | [rs |]] w]; simpl; eauto.
  all: case_lift; eauto.
Qed.

(** C7.  When the catalog query answers with the base tables [existing],
    TABLE_EXISTS on the list [required] returns; it passes exactly when the
    set difference of [required] and [existing] is empty; when it fails,
    the last record it logs carries the names of [required] that are not
    in [existing], in the order of [required]; and it passes when
    [required] is empty. *)
Theorem run_table_exists_passes (cursor : H) (schema : value)
  (required existing : list string) (s : st) (columns : list string) (w : W) :
  db_execute cursor (SelectBaseTables schema) (world s) =
    (inr (Some {| rs_columns := columns; rs_rows := catalog_rows existing |}), w) ->
  exists (passed : bool) (s' : st),
    run_table_exists db_execute cursor (VList (map VStr required)) (Some schema) s =
      (Ok passed, s') /\
    (passed = true <->
       (list_to_set required : gset string) ∖ list_to_set existing = ∅) /\
    (passed = false ->
       last (log s') =
         Some (ERROR,
               MMissingTables
                 (map VStr (filter (fun t => t ∉ existing) required)))) /\
    (required = [] -> passed = true).
Proof.
  intros Hq. set (missing := filter (fun t => t ∉ existing) required).
  destruct (first_column_set_names existing) as (S & HS & Hin).
  unfold run_table_exists. run_monad. rewrite Hq. simpl.
  rewrite HS. simpl. rewrite (not_in_names required existing S Hin). simpl.
  pose proof (filter_missing_nil required existing) as Hset.
  assert (Hnil : required = [] -> missing = []) by (by intros ->).
  fold missing in Hset |- *. clearbody missing.
  destruct missing as [| m ms]; simpl.
  - eexists _, _. split; [reflexivity |]. repeat split; try done.
    intros _. by apply Hset.
  - eexists _, _. split; [reflexivity |]. repeat split; try done.
    + intros Hempty. by apply Hset in Hempty.
    + intros _. simpl. by rewrite last_snoc.
    + by intros ?%Hnil.
Qed.

(** *** COUNT_CHECK *)

(** With a symbol outside the registry the check logs its preamble and the
    error, returns [False] and does nothing else. *)
Lemma run_count_check_unsupported (cursor : H) (query value_ description : value)
  (op_str : string) (s : st) :
  op_str ∉ supported ->
  run_count_check db_execute cursor query value_ (VStr op_str) description s =
    (Ok false,
     logged s (count_check_preamble query value_ (VStr op_str) description ++
               [(ERROR, MUnsupportedOperator (VStr op_str))])).
Proof.
  intros Hs. unfold run_count_check.
  rewrite OPERATORS_get_unsupported by done.
  run_monad. rewrite <- !app_assoc. reflexivity.
Qed.

(** Once the lookup in the registry has not raised, [run_count_check]
    returns whatever the server answers. *)
Lemma run_count_check_returns (cursor : H)
  (query value_ op_str description : value) (s : st) (f : option op_func) :
  OPERATORS_get op_str = inr f ->
  exists (b : bool) (s' : st),
    run_count_check db_execute cursor query value_ op_str description s =
      (Ok b, s').
Proof.
  intros Hf. unfold run_count_check. rewrite Hf. run_monad.
  destruct f as [f |]; simpl; eauto.
  destruct (db_execute _ _ _) as [[e | [rs |]] w]; simpl; eauto.
  destruct (rs_rows rs) as [| r rows]; simpl; eauto.
  case_lift; eauto.
Qed.

(** X22.  An operator that cannot be hashed, such as a list, escapes
    COUNT_CHECK as a [TypeError]: the lookup in the registry is outside the
    [try] block.  Nothing is sent. *)
Lemma run_count_check_unhashable_operator (cursor : H)
  (query value_ description : value) (l : list value) (s : st) :
  run_count_check db_execute cursor query value_ (VList l) description s =
    (Raise TypeError,
     logged s (count_check_preamble query value_ (VList l) description)).
Proof.
  unfold run_count_check. rewrite OPERATORS_get_unhashable.
  run_monad. by rewrite <- !app_assoc.
Qed.

(** C4.  With a symbol of the registry, and a query whose first row starts
    with a value of a type comparable with that of the target, COUNT_CHECK
    returns: it passes exactly when the relation the symbol denotes holds
    between the first column of the first row and the target.  Numbers are
    compared by the value they stand for, be they [int], [bool], [float]
    or [Decimal], strings and lists in the lexicographic order. *)
Theorem run_count_check_compares (cursor : H) (query description : value)
  (symbol : string) (actual target : value) (s : st)
  (columns : list string) (rest : row) (rows : list row) (w : W) :
  symbol ∈ supported ->
  comparable actual target ->
  db_execute cursor (UserQuery query) (world s) =
    (inr (Some {| rs_columns := columns;
                  rs_rows := (actual :: rest) :: rows |}), w) ->
  exists (passed : bool) (s' : st),
    run_count_check db_execute cursor query target (VStr symbol)
      description s = (Ok passed, s') /\
    (passed = true <-> denotes symbol actual target).
Proof.
  intros Hs Hcomparable Hq.
  destruct (registry_denotes symbol actual target Hs Hcomparable)
    as (f & b & Hf & Hb & Hiff).
  exists b. unfold run_count_check. rewrite Hf.
  run_monad. rewrite Hq. simpl. rewrite Hb. simpl.
  destruct b; simpl; eexists; (split; [reflexivity | exact Hiff]).
Qed.

(** C5.  With a symbol outside the registry COUNT_CHECK returns [False] to
    its caller, raising nothing, and the last record it logs is the
    "Unsupported operator" error. *)
Theorem run_count_check_unsupported_operator (cursor : H)
  (query value_ description : value) (op_str : string) (s : st) :
  op_str ∉ supported ->
  exists s' : st,
    run_count_check db_execute cursor query value_ (VStr op_str) description s =
      (Ok false, s') /\
    log s' = log s ++ count_check_preamble query value_ (VStr op_str) description
                   ++ [(ERROR, MUnsupportedOperator (VStr op_str))].
Proof.
  intros Hs. eexists. split.
  - by apply run_count_check_unsupported.
  - reflexivity.
Qed.

(** C6, as amended.  With a symbol of the registry and a query that the
    server answers with an empty result set, COUNT_CHECK returns [False]
    to its caller, raising nothing, and the last record it logs is the
    "Query returned no rows." error. *)
Theorem run_count_check_no_rows (cursor : H) (query value_ description : value)
  (symbol : string) (s : st) (columns : list string) (w : W) :
  symbol ∈ supported ->
  db_execute cursor (UserQuery query) (world s) =
    (inr (Some {| rs_columns := columns; rs_rows := [] |}), w) ->
  exists s' : st,
    run_count_check db_execute cursor query value_ (VStr symbol) description s =
      (Ok false, s') /\
    log s' = log s ++ count_check_preamble query value_ (VStr symbol) description
                   ++ [(ERROR, MNoRows)].
Proof.
  intros Hs Hq.
  destruct (OPERATORS_get_supported symbol Hs) as (f & Hf).
  unfold run_count_check. rewrite Hf.
  run_monad. rewrite Hq. simpl.
  eexists. split; [reflexivity |]. simpl. by rewrite <- !app_assoc.
Qed.

(** C10.  With a symbol outside the registry COUNT_CHECK returns [False]
    without sending anything: the world, the result pending in the cursor
    and the list of statements sent are what they were. *)
Theorem run_count_check_unsupported_sends_nothing (cursor : H)
  (query value_ description : value) (op_str : string) (s : st) :
  op_str ∉ supported ->
  exists s' : st,
    run_count_check db_execute cursor query value_ (VStr op_str) description s =
      (Ok false, s') /\
    world s' = world s /\ pending s' = pending s /\ issued s' = issued s.
Proof.
  intros Hs. eexists. split.
  - by apply run_count_check_unsupported.
  - by repeat split.
Qed.

(** *** INCLUDES_CHECK *)

Lemma run_includes_check_returns (cursor : H)
  (query expected_values description : value) (s : st) :
  exists (b : bool) (s' : st),
    run_includes_check db_execute cursor query expected_values description s =
      (Ok b, s').
Proof.
  unfold run_includes_check. run_monad.
  destruct (db_execute _ _ _) as [[e | [rs |]] w]; simpl; eauto.
  case_lift; eauto.
Qed.

(** The result of the check when the query answers and every tuple can be
    hashed: it is decided by the difference of the two sets. *)
Lemma run_includes_check_result (cursor : H) (query description : value)
  (expected_values : list value) (actual_rows : list row)
  (expected actual : list (list Py.key)) (s : st) (columns : list string)
  (w : W) :
  db_execute cursor (UserQuery query) (world s) =
    (inr (Some {| rs_columns := columns; rs_rows := actual_rows |}), w) ->
  hashes_to inr actual_rows actual ->
  hashes_to Py.iter expected_values expected ->
  let missing : gset (list Py.key) := list_to_set expected ∖ list_to_set actual in
  exists s' : st,
    run_includes_check db_execute cursor query (VList expected_values)
      description s = (Ok (bool_decide (missing = ∅)), s') /\
    last (log s') =
      Some (if bool_decide (missing = ∅) then (INFO, MAllPresent)
            else (ERROR, MMissingValues missing)).
Proof.
  intros Hq Hact Hexp missing.
  unfold run_includes_check. run_monad. rewrite Hq. simpl.
  rewrite (tuple_set_hashes_to _ _ _ Hact). simpl.
  rewrite (tuple_set_hashes_to _ _ _ Hexp). simpl.
  fold missing. destruct (decide (missing = ∅)) as [He | Hne]; simpl.
  - rewrite bool_decide_eq_true_2 by done.
    eexists. split; [reflexivity |]. simpl. by rewrite last_snoc.
  - rewrite bool_decide_eq_false_2 by done.
    eexists. split; [reflexivity |]. simpl. by rewrite last_snoc.
Qed.

(** ** The checks of one database *)

(** C2, as amended.  A check whose type is none of the four known kinds is
    skipped: [main] sends nothing and logs nothing for it, and goes on with
    the checks that follow. *)
Theorem unknown_kind_skipped (cur : H) (conn_config validator vtype : value)
  (rest : list value) (s : st) :
  Py.get validator "type" VNone = inr vtype ->
  (forall k, k ∈ known_kinds -> vtype ≠ VStr k) ->
  main_validator db_execute cur conn_config validator s = (Ok tt, s) /\
  for_each (validator :: rest) (main_validator db_execute cur conn_config) s =
    for_each rest (main_validator db_execute cur conn_config) s.
Proof.
  intros Htype Hkind.
  assert (Hskip : main_validator db_execute cur conn_config validator s = (Ok tt, s)).
  { unfold main_validator. rewrite Htype. run_monad.
    rewrite !eq_VStr_false; [done | ..]; apply Hkind; unfold known_kinds;
      set_solver. }
  split; [done |]. simpl. unfold mbind, M_bind. by rewrite Hskip.
Qed.

(** C3, as amended.  For a TABLE_EXISTS check [main] sends the catalog
    query, and nothing else, for the schema of the connection descriptor
    when it has the key, and for ['public'] otherwise; a schema given on
    the check plays no part. *)
Theorem table_exists_schema (cur : H) (conn_config validator : list (string * value))
  (s : st) :
  Py.assoc "type" validator = Some (VStr "TABLE_EXISTS") ->
  exists s' : st,
    main_validator db_execute cur (VDict conn_config) (VDict validator) s =
      (Ok tt, s') /\
    issued s' =
      issued s ++
      [(cur, SelectBaseTables
               (default (VStr "public") (Py.assoc "schema" conn_config)))].
Proof.
  intros Htype. unfold main_validator. simpl. rewrite Htype. simpl.
  unfold mbind, M_bind. simpl.
  match goal with |- context [run_table_exists _ _ ?r (Some ?sch) ?s0] =>
    destruct (run_table_exists_issues cur r sch s0) as (b & s' & -> & Hi) end.
  simpl. eexists. split; [reflexivity |]. exact Hi.
Qed.

(** A check that is well formed is run to its end, whatever the server
    answers. *)
Lemma main_validator_returns (cur : H) (conn_config : list (string * value))
  (validator : value) (s : st) :
  well_formed validator ->
  exists s',
    main_validator db_execute cur (VDict conn_config) validator s = (Ok tt, s').
Proof.
  intros (v & -> & Hprinter & Hcount).
  unfold main_validator. simpl.
  destruct (Py.assoc "type" v) as [vtype |] eqn:Htype; unfold mbind, M_bind; simpl;
    [| by eexists].
  destruct (Py.eq vtype (VStr "PRINTER")) eqn:E1.
  { apply eq_VStr in E1 as ->. destruct Hprinter as [q Hq]; [done |].
    rewrite Hq. simpl. apply run_printer_returns. }
  destruct (Py.eq vtype (VStr "TABLE_EXISTS")) eqn:E2.
  { match goal with |- context [run_table_exists _ _ ?r (Some ?sch) ?s0] =>
      destruct (run_table_exists_issues cur r sch s0) as (b & s' & -> & _) end.
    by eexists. }
  destruct (Py.eq vtype (VStr "COUNT_CHECK")) eqn:E3.
  { apply eq_VStr in E3 as ->.
    destruct (OPERATORS_get_hashable _ (Hcount eq_refl)) as [f Hf].
    match goal with |- context [run_count_check _ _ ?q ?v ?o ?d ?s0] =>
      destruct (run_count_check_returns cur q v o d s0 f Hf) as (b & s' & ->) end.
    by eexists. }
  destruct (Py.eq vtype (VStr "INCLUDES_CHECK")) eqn:E4; [| by eexists].
  match goal with |- context [run_includes_check _ _ ?q ?v ?d ?s0] =>
    destruct (run_includes_check_returns cur q v d s0) as (b & s' & ->) end.
  by eexists.
Qed.

End Executors.

(** ** INCLUDES_CHECK as a check of inclusion *)

Section Inclusion.

Context {W H : Type}.
Variable db_execute1 db_execute2 : H -> statement -> W -> (exn + option result_set) * W.

Abbreviation st0 := (state (W := W) (H := H)).


End Inclusion.

(** ** The run *)

Section Run.

Context {W H : Type}.
Variable db_connect : connect_args -> W -> (exn + H) * W.
Variable db_execute : H -> statement -> W -> (exn + option result_set) * W.
Variable db_release : H -> bool -> W -> option exn * W.

(** When the server refuses the connection, [create_connection] logs the
    error and leaves through [sys.exit(1)]. *)
Lemma create_connection_refused (conn_config : list (string * value))
  (args : connect_args) (e : exn) (s : state) (w : W) :
  connect_arguments conn_config = Some args ->
  db_connect args (world s) = (inl e, w) ->
  create_connection db_connect db_execute (VDict conn_config) s =
    (Exit 1, {| world := w; pending := pending s; issued := issued s;
                log := log s ++ [(ERROR, MConnectFailed e)] |}).
Proof.
  unfold connect_arguments. intros Hargs Hconn.
  destruct (Py.assoc "host" conn_config) as [host |] eqn:E1; [| done].
  destruct (Py.assoc "port" conn_config) as [port |] eqn:E2; [| done].
  destruct (Py.assoc "dbname" conn_config) as [dbname |] eqn:E3; [| done].
  destruct (Py.assoc "user" conn_config) as [user |] eqn:E4; [| done].
  destruct (Py.assoc "password" conn_config) as [password |] eqn:E5; [| done].
  simpl in Hargs. injection Hargs as <-.
  unfold create_connection. simpl. rewrite E1, E2, E3, E4, E5. simpl.
  unfold try_except, mbind, M_bind, psycopg_connect. simpl. rewrite Hconn. simpl.
  reflexivity.
Qed.

(** C1, as amended.  When the databases [before] have been processed and
    the connection to the next one is refused, the run logs the error and
    ends there with exit status 1: nothing is sent to that database and the
    databases [after] it are not connected to. *)
Theorem connection_failure_exits (config db conn_config : list (string * value))
  (before after : list value) (args : connect_args) (e : exn)
  (s0 s : state) (w : W) :
  Py.assoc "databases" config = Some (VList (before ++ VDict db :: after)) ->
  for_each before (main_database db_connect db_execute db_release) s0 =
    (Ok tt, s) ->
  Py.assoc "connection" db = Some (VDict conn_config) ->
  connect_arguments conn_config = Some args ->
  db_connect args (world s) = (inl e, w) ->
  main db_connect db_execute db_release (Loaded (VDict config)) s0 =
    (Exit 1, {| world := w; pending := pending s; issued := issued s;
                log := log s ++ [(ERROR, MConnectFailed e)] |}).
Proof.
  intros Hdbs Hbefore Hconf Hargs Hconn.
  unfold main. simpl. rewrite Hdbs. simpl.
  unfold mbind at 1, M_bind at 1. simpl.
  unfold mbind at 1, M_bind at 1. simpl.
  rewrite for_each_app, Hbefore. simpl.
  unfold mbind at 1, M_bind at 1.
  unfold main_database at 1. simpl. rewrite Hconf. simpl.
  unfold mbind at 1, M_bind at 1. simpl.
  unfold mbind at 1, M_bind at 1. simpl.
  unfold mbind at 1, M_bind at 1.
  by rewrite (create_connection_refused conn_config args e s w).
Qed.

End Run.

(** ** The statements on the concrete server *)

Lemma run_count_check_compares_witness :
  exists (passed : bool) s',
    run_count_check (Demo.db_execute_rows [[VInt 9007199254740993]]) "shop"
      (VStr "SELECT max(id) FROM orders") (VFloat (FFinite false 1 53))
      (VStr ">") (VStr "identifiers beyond 2^53") Demo.start = (Ok passed, s') /\
    (passed = true <->
     denotes ">" (VInt 9007199254740993) (VFloat (FFinite false 1 53))).
Proof.
  apply (run_count_check_compares (Demo.db_execute_rows [[VInt 9007199254740993]])
           "shop" (VStr "SELECT max(id) FROM orders")
           (VStr "identifiers beyond 2^53") ">" (VInt 9007199254740993)
           (VFloat (FFinite false 1 53)) Demo.start ["value"] [] [] []).
  - unfold supported. repeat constructor.
  - eapply comparable_numbers; constructor.
  - reflexivity.
Defined.

Lemma run_count_check_unsupported_operator_witness :
  exists s',
    run_count_check Demo.db_execute "shop" Demo.count_orders (VInt 3) (VStr "=>")
      (VStr "orders were migrated") Demo.start = (Ok false, s') /\
    log s' =
      log Demo.start ++
      count_check_preamble Demo.count_orders (VInt 3) (VStr "=>")
        (VStr "orders were migrated") ++
      [(ERROR, MUnsupportedOperator (VStr "=>"))].
Proof.
  apply (run_count_check_unsupported_operator Demo.db_execute "shop"
           Demo.count_orders (VInt 3) (VStr "orders were migrated") "=>"
           Demo.start).
  unfold supported. not_in_list.
Defined.

Lemma run_count_check_no_rows_witness :
  exists s',
    run_count_check Demo.db_execute "shop" Demo.no_orders (VInt 0) (VStr "=")
      (VStr "no orders") Demo.start = (Ok false, s') /\
    log s' =
      log Demo.start ++
      count_check_preamble Demo.no_orders (VInt 0) (VStr "=") (VStr "no orders") ++
      [(ERROR, MNoRows)].
Proof.
  apply (run_count_check_no_rows Demo.db_execute "shop" Demo.no_orders (VInt 0)
           (VStr "no orders") "=" Demo.start ["id"] []).
  - unfold supported. repeat constructor.
  - reflexivity.
Defined.

Lemma run_count_check_unsupported_sends_nothing_witness :
  exists s',
    run_count_check Demo.db_execute "shop" Demo.count_orders (VInt 3) (VStr "=>")
      (VStr "orders were migrated") Demo.start = (Ok false, s') /\
    world s' = world Demo.start /\ pending s' = pending Demo.start /\
    issued s' = issued Demo.start.
Proof.
  apply (run_count_check_unsupported_sends_nothing Demo.db_execute "shop"
           Demo.count_orders (VInt 3) (VStr "orders were migrated") "=>"
           Demo.start).
  unfold supported. not_in_list.
Defined.

Lemma run_table_exists_passes_witness :
  exists (passed : bool) s',
    run_table_exists Demo.db_execute "shop"
      (VList (map VStr ["orders"; "invoices"; "users"; "payments"]))
      (Some (VStr "public")) Demo.start = (Ok passed, s') /\
    (passed = true <->
       (list_to_set ["orders"; "invoices"; "users"; "payments"] : gset string)
         ∖ list_to_set ["orders"; "users"] = ∅) /\
    (passed = false ->
       last (log s') =
         Some (ERROR,
               MMissingTables
                 (map VStr
                    (filter (fun t => t ∉ ["orders"; "users"])
                       ["orders"; "invoices"; "users"; "payments"])))) /\
    (["orders"; "invoices"; "users"; "payments"] = [] -> passed = true).
Proof.
  apply (run_table_exists_passes Demo.db_execute "shop" (VStr "public")
           ["orders"; "invoices"; "users"; "payments"] ["orders"; "users"]
           Demo.start ["table_name"] []).
  reflexivity.
Defined.


Lemma unknown_kind_skipped_witness :
  main_validator Demo.db_execute "shop" (Demo.connection "shop")
    Demo.row_count_check Demo.start = (Ok tt, Demo.start) /\
  for_each [Demo.row_count_check; Demo.count_orders_check ">=" 3]
    (main_validator Demo.db_execute "shop" (Demo.connection "shop")) Demo.start =
  for_each [Demo.count_orders_check ">=" 3]
    (main_validator Demo.db_execute "shop" (Demo.connection "shop")) Demo.start.
Proof.
  apply (unknown_kind_skipped Demo.db_execute "shop" (Demo.connection "shop")
           Demo.row_count_check (VStr "ROW_COUNT")
           [Demo.count_orders_check ">=" 3] Demo.start).
  - reflexivity.
  - intros k Hk. unfold known_kinds in Hk.
    repeat (apply elem_of_cons in Hk as [-> | Hk]; [discriminate |]).
    by apply elem_of_nil in Hk.
Defined.

Lemma table_exists_schema_witness :
  exists s',
    main_validator Demo.db_execute "shop" Demo.sales_connection
      Demo.table_exists_in_audit Demo.start = (Ok tt, s') /\
    issued s' =
      issued Demo.start ++
      [("shop",
        SelectBaseTables
          (default (VStr "public") (Py.assoc "schema" Demo.sales_descriptor)))].
Proof.
  apply (table_exists_schema Demo.db_execute "shop" Demo.sales_descriptor
           Demo.audit_check Demo.start).
  reflexivity.
Defined.

Lemma connection_failure_exits_witness :
  exists (s : state (W := Demo.W) (H := Demo.H)) (w : Demo.W) (e : exn),
    main Demo.db_connect Demo.db_execute Demo.db_release
      (Loaded (VDict Demo.shop_down_audit)) Demo.start =
    (Exit 1, {| world := w; pending := pending s; issued := issued s;
                log := log s ++ [(ERROR, MConnectFailed e)] |}).
Proof.
  eexists _, _, _.
  eapply (connection_failure_exits Demo.db_connect Demo.db_execute
            Demo.db_release Demo.shop_down_audit (Demo.entry "down") _
            [VDict (Demo.entry "shop")] [VDict (Demo.entry "audit")]).
  - reflexivity.
  - vm_compute. reflexivity.
  - reflexivity.
  - reflexivity.
  - reflexivity.
Defined.

(** ** Where the code departs from the specification *)

(** C1, against the claim.  With two databases of which the first refuses
    the connection, the run ends with exit status 1 after the first: no
    connection to the second is ever requested. *)
Lemma connection_failure_counterexample :
  main Demo.db_connect Demo.db_execute Demo.db_release
    (Loaded Demo.down_then_shop) Demo.start =
    (Exit 1,
     {| world := ["down"]; pending := None; issued := [];
        log := [(ERROR, MConnectFailed (DbError "connection refused"))] |}) /\
  ~ exists s',
      main Demo.db_connect Demo.db_execute Demo.db_release
        (Loaded Demo.down_then_shop) Demo.start = (Ok tt, s') /\
      "shop" ∈ world s'.
Proof.
  split; [reflexivity |]. intros (s' & Hrun & _). discriminate Hrun.
Qed.

(** C2, against the claim.  A check of the unknown kind [ROW_COUNT] leaves
    the state as it was: no record, of a configuration error or of
    anything else, is produced for it. *)
Lemma unknown_kind_counterexample :
  main_validator Demo.db_execute "shop" (Demo.connection "shop")
    Demo.row_count_check Demo.start = (Ok tt, Demo.start) /\
  ~ exists r : record,
      r ∈ log (snd (main_validator Demo.db_execute "shop" (Demo.connection "shop")
                      Demo.row_count_check Demo.start)).
Proof.
  split; [reflexivity |]. intros (r & Hr). vm_compute in Hr.
  by apply elem_of_nil in Hr.
Qed.

(** C3, against the claim.  The check names the schema [audit] and the
    connection descriptor the schema [sales]: by the precedence of the
    specification the tables are looked up in [audit], and the catalog
    query is sent for [sales]. *)
Lemma table_exists_schema_counterexample :
  schema_by_precedence Demo.audit_check Demo.sales_descriptor = VStr "audit" /\
  issued (snd (main_validator Demo.db_execute "shop" Demo.sales_connection
                 Demo.table_exists_in_audit Demo.start)) =
    [("shop", SelectBaseTables (VStr "sales"))] /\
  issued (snd (main_validator Demo.db_execute "shop" Demo.sales_connection
                 Demo.table_exists_in_audit Demo.start)) <>
    [("shop",
      SelectBaseTables
        (schema_by_precedence Demo.audit_check Demo.sales_descriptor))].
Proof.
  split; [reflexivity |]. split; [reflexivity |]. vm_compute. discriminate.
Qed.

(** C6, against the claim.  The query answers with an empty result set and
    the operator is not in the registry: the check fails on the operator,
    before the query is sent, and logs no "Query returned no rows."
    error. *)
Lemma run_count_check_no_rows_counterexample :
  Demo.db_execute "shop" (UserQuery Demo.no_orders) (world Demo.start) =
    (inr (Some {| rs_columns := ["id"]; rs_rows := [] |}), []) /\
  ~ exists s',
      run_count_check Demo.db_execute "shop" Demo.no_orders (VInt 0) (VStr "=>")
        (VStr "no orders") Demo.start = (Ok false, s') /\
      (ERROR, MNoRows) ∈ log s'.
Proof.
  split; [reflexivity |]. intros (s' & Hrun & Hin).
  vm_compute in Hrun. injection Hrun as <-. simpl in Hin.
  repeat (apply elem_of_cons in Hin as [Hin | Hin]; [discriminate Hin |]).
  by apply elem_of_nil in Hin.
Qed.

(** C9, at the failing input.  A PRINTER check without a query makes the
    loop over the checks end with [KeyError] before anything is sent: the
    COUNT_CHECK that follows it, which runs to its end and sends its query
    when it is alone, is never run. *)
Theorem printer_without_query_stops_checks :
  for_each [Demo.printer_without_query; Demo.count_orders_check ">=" 3]
    (main_validator Demo.db_execute "shop" (Demo.connection "shop")) Demo.start =
    (Raise (KeyError "query"), Demo.start) /\
  exists s',
    for_each [Demo.count_orders_check ">=" 3]
      (main_validator Demo.db_execute "shop" (Demo.connection "shop")) Demo.start =
      (Ok tt, s') /\
    issued s' = [("shop", UserQuery Demo.count_orders)].
Proof.
  split; [reflexivity |]. eexists. split; reflexivity.
Qed.

(** ** Further properties of the executors *)

Section ExecutorEdges.

Context {W H : Type}.
Variable db_execute : H -> statement -> W -> (exn + option result_set) * W.

Abbreviation st1 := (state (W := W) (H := H)).

Lemma for_each_logging {A} (f : A -> message) (l : list A) (s : st1) :
  for_each l (fun x => logging_info (f x)) s =
    (Ok tt, logged s (map (fun x => (INFO, f x)) l)).
Proof.
  revert s. induction l as [| x l IH]; intros s; simpl.
  - unfold logged. rewrite app_nil_r. by destruct s.
  - unfold mbind, M_bind. simpl. rewrite IH. unfold logged. simpl.
    by rewrite <- app_assoc.
Qed.


(** X2.  When the server rejects the query, PRINTER logs the error and
    returns normally. *)
Theorem run_printer_query_error (cursor : H) (query description : value) (s : st1)
  (e : exn) (w : W) :
  db_execute cursor (UserQuery query) (world s) = (inl e, w) ->
  run_printer db_execute cursor query description s =
    (Ok tt,
     {| world := w; pending := None;
        issued := issued s ++ [(cursor, UserQuery query)];
        log := log s ++ printer_preamble query description ++
               [(ERROR, MPrinterFailed e)] |}).
Proof.
  intros Hq. unfold run_printer. run_monad. rewrite Hq. simpl.
  by rewrite <- !app_assoc.
Qed.

(** X3.  When the server rejects the catalog query, TABLE_EXISTS returns
    [False] with the error logged, whatever tables are required, the empty
    list included. *)
Theorem run_table_exists_query_error (cursor : H) (required_tables schema : value)
  (s : st1) (e : exn) (w : W) :
  db_execute cursor (SelectBaseTables schema) (world s) = (inl e, w) ->
  run_table_exists db_execute cursor required_tables (Some schema) s =
    (Ok false,
     {| world := w; pending := None;
        issued := issued s ++ [(cursor, SelectBaseTables schema)];
        log := log s ++ table_exists_preamble required_tables ++
               [(ERROR, MTableExistsFailed e)] |}).
Proof.
  intros Hq. unfold run_table_exists. run_monad. rewrite Hq. simpl.
  by rewrite <- !app_assoc.
Qed.

(** X4.  When the required tables are [None], a boolean or a number, be
    it an [int], a [float] or a [Decimal], TABLE_EXISTS returns [False]
    with a [TypeError] logged. *)
Theorem run_table_exists_not_a_list (cursor : H) (required_tables schema : value)
  (existing : list string) (s : st1) (columns : list string) (w : W) :
  db_execute cursor (SelectBaseTables schema) (world s) =
    (inr (Some {| rs_columns := columns; rs_rows := catalog_rows existing |}), w) ->
  (required_tables = VNone \/ (exists b, required_tables = VBool b) \/
   (exists z, required_tables = VInt z) \/
   (exists f, required_tables = VFloat f) \/
   (exists d, required_tables = VDecimal d)) ->
  exists s' : st1,
    run_table_exists db_execute cursor required_tables (Some schema) s =
      (Ok false, s') /\
    log s' = log s ++ table_exists_preamble required_tables ++
             [(ERROR, MTableExistsFailed TypeError)].
Proof.
  intros Hq Hreq.
  destruct (first_column_set_names existing) as (S & HS & _).
  unfold run_table_exists. run_monad. rewrite Hq. simpl. rewrite HS. simpl.
  destruct Hreq as [-> | [[b ->] | [[z ->] | [[f ->] | [d ->]]]]]; simpl;
    (eexists; split; [reflexivity |]; simpl; by rewrite <- !app_assoc).
Qed.

(** X5.  A string given for the required tables is read as the list of its
    characters: each code point of the string is looked up as the name of
    a table.  The check passes exactly when every one of them is a table
    of the schema, and when it fails the last record carries the
    characters that are not, in their order. *)
Theorem run_table_exists_string_is_characters (cursor : H) (schema : value)
  (characters existing : list string) (s : st1) (columns : list string) (w : W) :
  Forall code_point characters ->
  db_execute cursor (SelectBaseTables schema) (world s) =
    (inr (Some {| rs_columns := columns; rs_rows := catalog_rows existing |}), w) ->
  exists (passed : bool) (s' : st1),
    run_table_exists db_execute cursor (VStr (join characters)) (Some schema) s =
      (Ok passed, s') /\
    (passed = true <-> forall c, c ∈ characters -> c ∈ existing) /\
    (passed = false ->
       last (log s') =
         Some (ERROR,
               MMissingTables
                 (map VStr (filter (fun c => c ∉ existing) characters)))).
Proof.
  intros Hchars Hq. set (missing := filter (fun c => c ∉ existing) characters).
  destruct (first_column_set_names existing) as (S & HS & Hin).
  unfold run_table_exists. run_monad. rewrite Hq. simpl.
  rewrite HS. simpl. unfold Py.chars. rewrite (code_points_join _ Hchars).
  rewrite (not_in_names characters existing S Hin). simpl.
  assert (Hset : missing = [] <-> forall c, c ∈ characters -> c ∈ existing).
  { unfold missing. split.
    - intros Hnil c Hc. destruct (decide (c ∈ existing)) as [| Hn]; [done |].
      assert (Hm : c ∈ filter (fun c => c ∉ existing) characters)
        by (by apply list_elem_of_filter).
      rewrite Hnil in Hm. by apply elem_of_nil in Hm.
    - intros Hall. apply elem_of_nil_inv.
      intros c [Hn Hc]%list_elem_of_filter. by apply Hn, Hall. }
  fold missing. clearbody missing.
  destruct missing as [| m ms]; simpl.
  - eexists _, _. split; [reflexivity |]. split; [| done].
    split; [intros _; by apply Hset | done].
  - eexists _, _. split; [reflexivity |]. split.
    + split; [done |]. intros Hall. by apply Hset in Hall.
    + intros _. simpl. by rewrite last_snoc.
Qed.

(** X6.  When the server rejects the query of a COUNT_CHECK whose operator
    is in the registry, the check returns [False] with the error logged. *)
Theorem run_count_check_query_error (cursor : H) (query value_ description : value)
  (symbol : string) (s : st1) (e : exn) (w : W) :
  symbol ∈ supported ->
  db_execute cursor (UserQuery query) (world s) = (inl e, w) ->
  run_count_check db_execute cursor query value_ (VStr symbol) description s =
    (Ok false,
     {| world := w; pending := None;
        issued := issued s ++ [(cursor, UserQuery query)];
        log := log s ++ count_check_preamble query value_ (VStr symbol) description
                     ++ [(ERROR, MCountCheckFailed e)] |}).
Proof.
  intros Hs Hq.
  destruct (OPERATORS_get_supported symbol Hs) as (f & Hf).
  unfold run_count_check. rewrite Hf. run_monad. rewrite Hq. simpl.
  by rewrite <- !app_assoc.
Qed.

(** X7.  When the first row of the result has no column, COUNT_CHECK
    returns [False] with an [IndexError] logged. *)
Theorem run_count_check_no_columns (cursor : H) (query value_ description : value)
  (symbol : string) (s : st1) (columns : list string) (rows : list row) (w : W) :
  symbol ∈ supported ->
  db_execute cursor (UserQuery query) (world s) =
    (inr (Some {| rs_columns := columns; rs_rows := [] :: rows |}), w) ->
  exists s' : st1,
    run_count_check db_execute cursor query value_ (VStr symbol) description s =
      (Ok false, s') /\
    log s' = log s ++ count_check_preamble query value_ (VStr symbol) description
                   ++ [(ERROR, MCountCheckFailed IndexError)].
Proof.
  intros Hs Hq.
  destruct (OPERATORS_get_supported symbol Hs) as (f & Hf).
  unfold run_count_check. rewrite Hf. run_monad. rewrite Hq. simpl.
  eexists. split; [reflexivity |]. simpl. by rewrite <- !app_assoc.
Qed.

(** X8.  A text column compared with an integer target: the check passes
    with [!=] only; with [=] it fails as a comparison that is false; with
    an ordering symbol the comparison raises and the check fails with a
    [TypeError] logged. *)
Theorem run_count_check_text_against_number (cursor : H)
  (query description : value) (symbol : string) (actual : string) (target : Z)
  (s : st1) (columns : list string) (rest : row) (rows : list row) (w : W) :
  symbol ∈ supported ->
  db_execute cursor (UserQuery query) (world s) =
    (inr (Some {| rs_columns := columns;
                  rs_rows := (VStr actual :: rest) :: rows |}), w) ->
  exists (passed : bool) (s' : st1),
    run_count_check db_execute cursor query (VInt target) (VStr symbol)
      description s = (Ok passed, s') /\
    (passed = true <-> symbol = "!=") /\
    (symbol ∈ ordering ->
     last (log s') = Some (ERROR, MCountCheckFailed TypeError)) /\
    (symbol = "=" ->
     last (log s') =
       Some (ERROR, MCheckFailed (VStr actual) (VStr "=") (VInt target))).
Proof.
  intros Hs Hq. unfold supported in Hs.
  repeat (apply elem_of_cons in Hs as [-> | Hs]); [.. | by apply elem_of_nil in Hs].
  all: unfold run_count_check;
    match goal with |- context [OPERATORS_get ?v] =>
      let r := eval vm_compute in (OPERATORS_get v) in
      change (OPERATORS_get v) with r end;
    run_monad; rewrite Hq; simpl;
    eexists _, _; (split; [reflexivity |]); simpl;
    (split; [split; intros Hx; first [reflexivity | discriminate Hx] |]);
    (split; [intros Ho | intros He]).
  all: try discriminate He.
  all: try (by rewrite last_snoc).
  all: unfold ordering in Ho;
    repeat (apply elem_of_cons in Ho as [Ho | Ho]; [discriminate Ho |]);
    by apply elem_of_nil in Ho.
Qed.

(** X24.  A NaN in the first column, against a target that is a number:
    the check passes with [!=] only.  With an ordering symbol a [float]
    NaN against an [int], a [bool] or a [float] makes the comparison
    false, and the check fails as such; as soon as a [Decimal] takes part
    the comparison raises and the check fails with an [InvalidOperation]
    logged. *)
Theorem run_count_check_not_a_number (cursor : H) (query description : value)
  (symbol : string) (actual target : value) (obj : N) (x : extended)
  (s : st1) (columns : list string) (rest : row) (rows : list row) (w : W) :
  symbol ∈ supported ->
  actual = VFloat (FNan obj) \/ actual = VDecimal (DNan obj) ->
  stands_for target x ->
  db_execute cursor (UserQuery query) (world s) =
    (inr (Some {| rs_columns := columns;
                  rs_rows := (actual :: rest) :: rows |}), w) ->
  exists (passed : bool) (s' : st1),
    run_count_check db_execute cursor query target (VStr symbol)
      description s = (Ok passed, s') /\
    (passed = true <-> symbol = "!=") /\
    (symbol ∈ ordering ->
     last (log s') =
       Some (ERROR,
             match actual, target with
             | VDecimal _, _ | _, VDecimal _ => MCountCheckFailed InvalidOperation
             | _, _ => MCheckFailed actual (VStr symbol) target
             end)).
Proof.
  intros Hs Hnan Htarget Hq. unfold supported in Hs.
  repeat (apply elem_of_cons in Hs as [-> | Hs]); [.. | by apply elem_of_nil in Hs].
  all: unfold run_count_check;
    match goal with |- context [OPERATORS_get ?v] =>
      let r := eval vm_compute in (OPERATORS_get v) in
      change (OPERATORS_get v) with r end;
    run_monad; rewrite Hq; simpl.
  all: destruct Hnan as [-> | ->]; destruct Htarget; try destruct n; simpl.
  all: eexists _, _; (split; [reflexivity |]); simpl;
    (split; [split; intros Hx; first [reflexivity | discriminate Hx] |]);
    intros Ho.
  all: try (by rewrite last_snoc).
  all: unfold ordering in Ho;
    repeat (apply elem_of_cons in Ho as [Ho | Ho]; [discriminate Ho |]);
    by apply elem_of_nil in Ho.
Qed.

(** X9.  With a symbol of the registry COUNT_CHECK sends its query, once,
    and returns a verdict, whatever the server answers. *)
Theorem run_count_check_sends_query (cursor : H)
  (query value_ description : value) (symbol : string) (s : st1) :
  symbol ∈ supported ->
  exists (passed : bool) (s' : st1),
    run_count_check db_execute cursor query value_ (VStr symbol) description s =
      (Ok passed, s') /\
    issued s' = issued s ++ [(cursor, UserQuery query)].
Proof.
  intros Hs.
  destruct (OPERATORS_get_supported symbol Hs) as (f & Hf).
  unfold run_count_check. rewrite Hf. run_monad.
  destruct (db_execute _ _ _) as [[e | [rs |]] w]; simpl; eauto.
  destruct (rs_rows rs) as [| r rows]; simpl; eauto.
  case_lift; eauto.
Qed.

(** X10.  When the server rejects the query, INCLUDES_CHECK returns
    [False] with the error logged. *)
Theorem run_includes_check_query_error (cursor : H)
  (query expected_values description : value) (s : st1) (e : exn) (w : W) :
  db_execute cursor (UserQuery query) (world s) = (inl e, w) ->
  run_includes_check db_execute cursor query expected_values description s =
    (Ok false,
     {| world := w; pending := None;
        issued := issued s ++ [(cursor, UserQuery query)];
        log := log s ++ includes_check_preamble query expected_values description
                     ++ [(ERROR, MIncludesCheckFailed e)] |}).
Proof.
  intros Hq. unfold run_includes_check. run_monad. rewrite Hq. simpl.
  by rewrite <- !app_assoc.
Qed.

(** X11.  With nothing expected INCLUDES_CHECK passes as soon as the query
    answers with rows that can be hashed, be there rows or not. *)
Theorem run_includes_check_nothing_expected (cursor : H)
  (query description : value) (actual_rows : list row)
  (actual : list (list Py.key)) (s : st1) (columns : list string) (w : W) :
  db_execute cursor (UserQuery query) (world s) =
    (inr (Some {| rs_columns := columns; rs_rows := actual_rows |}), w) ->
  hashes_to inr actual_rows actual ->
  exists s' : st1,
    run_includes_check db_execute cursor query (VList []) description s =
      (Ok true, s') /\
    last (log s') = Some (INFO, MAllPresent).
Proof.
  intros Hq Hact.
  destruct (run_includes_check_result db_execute cursor query description
              [] actual_rows [] actual s columns w Hq Hact) as (s' & Hrun & Hlog).
  { constructor. }
  simpl in Hrun, Hlog.
  assert (Hempty : (∅ : gset (list Py.key)) ∖ list_to_set actual = ∅).
  { apply elem_of_equiv_empty_L. intros k [Hk _]%elem_of_difference.
    by apply not_elem_of_empty in Hk. }
  rewrite (bool_decide_eq_true_2 _ Hempty) in Hrun.
  rewrite (bool_decide_eq_true_2 _ Hempty) in Hlog.
  by exists s'.
Qed.

(** X12.  A column that cannot be hashed, such as an array, in the first
    row the query returns makes INCLUDES_CHECK return [False] with a
    [TypeError] logged, whatever is expected. *)
Theorem run_includes_check_unhashable_column (cursor : H)
  (query expected_values description : value) (before : row) (l : list value)
  (after : row) (before_keys : list Py.key) (rows : list row) (s : st1)
  (columns : list string) (w : W) :
  db_execute cursor (UserQuery query) (world s) =
    (inr (Some {| rs_columns := columns;
                  rs_rows := (before ++ VList l :: after) :: rows |}), w) ->
  Py.tuple_key before = inr before_keys ->
  exists s' : st1,
    run_includes_check db_execute cursor query expected_values description s =
      (Ok false, s') /\
    last (log s') = Some (ERROR, MIncludesCheckFailed TypeError).
Proof.
  intros Hq Hbefore.
  assert (Hkey : Py.tuple_key (before ++ VList l :: after) = inl TypeError).
  { clear Hq. revert before_keys Hbefore.
    induction before as [| v before IH]; intros ks Hks; simpl; [done |].
    simpl in Hks. destruct (Py.key_of v); [done |].
    destruct (Py.tuple_key before) as [| ks'] eqn:E; [done |].
    by rewrite (IH ks'). }
  unfold run_includes_check. run_monad. rewrite Hq. simpl. rewrite Hkey. simpl.
  eexists. split; [reflexivity |]. simpl. by rewrite last_snoc.
Qed.

End ExecutorEdges.

(** ** Further properties of the connection and of the run *)

Section RunEdges.

Context {W H : Type}.
Variable db_connect : connect_args -> W -> (exn + H) * W.
Variable db_execute : H -> statement -> W -> (exn + option result_set) * W.
Variable db_release : H -> bool -> W -> option exn * W.

Abbreviation st2 := (state (W := W) (H := H)).

(** X13.  [create_connection] lets no exception through: it returns a
    connection, or it leaves with exit status 1 and the error is the last
    record logged. *)
Theorem create_connection_returns_or_exits (conn_config : value) (s : st2) :
  (exists conn s',
     create_connection db_connect db_execute conn_config s = (Ok conn, s')) \/
  (exists e s',
     create_connection db_connect db_execute conn_config s = (Exit 1, s') /\
     last (log s') = Some (ERROR, MConnectFailed e)).
Proof.
  unfold create_connection, try_except, mbind, M_bind, psycopg_connect,
    conn_cursor, cursor_execute, logging_info, logging_error, logging, sys_exit,
    lift, raise, mret, M_ret.
  repeat (match goal with
          | |- context [Py.getitem ?c ?k] =>
              destruct (Py.getitem c k) as [e | ?]; simpl;
              [right; eexists e, _; split; [reflexivity |]; simpl;
               by rewrite last_snoc |]
          end).
  destruct (db_connect _ _) as [[e | conn] w]; simpl.
  { right. eexists e, _. split; [reflexivity |]. simpl. by rewrite last_snoc. }
  destruct (Py.get conn_config "schema" VNone) as [e | schema]; simpl.
  { right. eexists e, _. split; [reflexivity |]. simpl. by rewrite last_snoc. }
  destruct (Py.truthy schema); simpl; [| left; by eexists _, _].
  destruct (db_execute _ _ _) as [[e | rs] w']; simpl.
  - right. eexists e, _. split; [reflexivity |]. simpl. by rewrite last_snoc.
  - left. by eexists _, _.
Qed.

(** X14.  When the descriptor lacks one of the five keys, the run ends with
    exit status 1 on the [KeyError] of the first missing key, in the order
    host, port, dbname, user, password, and no connection is requested:
    the world is what it was. *)
Theorem create_connection_incomplete (conn_config : list (string * value))
  (present later : list string) (k : string) (s : st2) :
  descriptor_keys = present ++ k :: later ->
  Forall (fun p => is_Some (Py.assoc p conn_config)) present ->
  Py.assoc k conn_config = None ->
  create_connection db_connect db_execute (VDict conn_config) s =
    (Exit 1, logged s [(ERROR, MConnectFailed (KeyError k))]).
Proof.
  unfold descriptor_keys. intros Hkeys Hpresent Hk.
  unfold create_connection, try_except, mbind at 1, M_bind at 1. simpl.
  repeat (destruct present as [| p present]; simpl in Hkeys;
          [injection Hkeys as <- <-; by rewrite Hk |
           injection Hkeys as <- Hkeys;
           apply Forall_cons in Hpresent as [[? ->] Hpresent]; simpl]).
  by destruct present.
Qed.


(** X16.  When the server rejects the search path, the run ends with exit
    status 1 although the connection was made. *)
Theorem create_connection_search_path_rejected
  (conn_config : list (string * value)) (args : connect_args) (conn : H)
  (schema : value) (e : exn) (s : st2) (w w' : W) :
  connect_arguments conn_config = Some args ->
  db_connect args (world s) = (inr conn, w) ->
  Py.assoc "schema" conn_config = Some schema ->
  Py.truthy schema = true ->
  db_execute conn (SetSearchPath schema) w = (inl e, w') ->
  create_connection db_connect db_execute (VDict conn_config) s =
    (Exit 1,
     {| world := w'; pending := None;
        issued := issued s ++ [(conn, SetSearchPath schema)];
        log := log s ++ [(INFO, MConnected); (ERROR, MConnectFailed e)] |}).
Proof.
  intros Hargs Hconn Hschema Ht Hset. split_descriptor Hargs.
  unfold create_connection. simpl. rewrite E, E0, E1, E2, E3, Hschema. simpl.
  unfold try_except, mbind, M_bind, psycopg_connect, conn_cursor, cursor_execute,
    logging_info, logging_error, logging, sys_exit. simpl.
  rewrite Hconn. simpl. rewrite Ht. simpl. rewrite Hset. simpl.
  by rewrite <- app_assoc.
Qed.

Lemma create_connection_connects (conn_config : list (string * value))
  (args : connect_args) (conn : H) (s : st2) (w : W) :
  connect_arguments conn_config = Some args ->
  db_connect args (world s) = (inr conn, w) ->
  (forall h schema w0, exists rs w1,
     db_execute h (SetSearchPath schema) w0 = (inr rs, w1)) ->
  exists s' : st2,
    create_connection db_connect db_execute (VDict conn_config) s = (Ok conn, s').
Proof.
  intros Hargs Hconn Hset. split_descriptor Hargs.
  unfold create_connection. simpl. rewrite E, E0, E1, E2, E3. simpl.
  unfold try_except, mbind, M_bind, psycopg_connect, conn_cursor, cursor_execute,
    logging_info, logging. simpl.
  rewrite Hconn. simpl.
  destruct (Py.truthy _); simpl; [| by eexists].
  match goal with |- context [db_execute ?h (SetSearchPath ?sch) ?w0] =>
    destruct (Hset h sch w0) as (rs & w1 & ->) end.
  simpl. by eexists.
Qed.

Lemma main_database_returns (db : value) (s : st2) :
  (forall h b w, fst (db_release h b w) = None) ->
  (forall h schema w, exists rs w',
     db_execute h (SetSearchPath schema) w = (inr rs, w')) ->
  entry_ok db_connect db ->
  exists s' : st2,
    main_database db_connect db_execute db_release db s = (Ok tt, s') /\
    last (log s') = Some (INFO, MConnectionClosed).
Proof.
  intros Hrel Hset (d & c & args & validators & -> & Hc & Hargs & Hconn & Hit & Hwf).
  destruct (Hconn (world s)) as (conn & w & Hw).
  destruct (create_connection_connects c args conn s w Hargs Hw Hset) as [s1 Hs1].
  unfold main_database. simpl. rewrite Hc. simpl.
  unfold mbind at 1, M_bind at 1. simpl.
  unfold mbind at 1, M_bind at 1. simpl.
  unfold mbind at 1, M_bind at 1. rewrite Hs1.
  unfold mbind at 1, M_bind at 1.
  unfold with_connection.
  unfold mbind at 1, M_bind at 1. unfold conn_cursor at 1.
  unfold mbind at 1, M_bind at 1.
  change (match Py.assoc "validation" d with
          | Some v => v
          | None => VList []
          end) with (default (VList []) (Py.assoc "validation" d)).
  rewrite Hit. simpl.
  match goal with |- context [for_each validators ?f ?s0] =>
    destruct (fun Hf => for_each_returns f validators Hf s0) as [s2 ->] end.
  { intros v s0 Hv. apply main_validator_returns.
    by eapply Forall_forall in Hwf. }
  pose proof (Hrel conn false (world s2)) as Hnone.
  destruct (db_release conn false (world s2)) as [r w2]. simpl in Hnone. subst r.
  unfold logging_info, logging. simpl.
  eexists. split; [reflexivity |]. simpl. by rewrite last_snoc.
Qed.

(** X17.  When the server accepts the connection of every entry and every
    search path, leaving a connection raises nothing, and every entry has
    its descriptor and well-formed checks, the run comes to its end without
    an exception and without [sys.exit], whatever the verdicts of the
    checks. *)
Theorem main_completes (config : list (string * value)) (dbs : list value)
  (s : st2) :
  (forall h b w, fst (db_release h b w) = None) ->
  (forall h schema w, exists rs w',
     db_execute h (SetSearchPath schema) w = (inr rs, w')) ->
  Py.assoc "databases" config = Some (VList dbs) ->
  Forall (entry_ok db_connect) dbs ->
  exists s' : st2,
    main db_connect db_execute db_release (Loaded (VDict config)) s = (Ok tt, s').
Proof.
  intros Hrel Hset Hdbs Hok. unfold main. simpl. rewrite Hdbs. simpl.
  unfold mbind, M_bind. simpl.
  apply for_each_returns. intros db s0 Hdb.
  destruct (main_database_returns db s0 Hrel Hset) as (s' & Hs' & _).
  { by eapply Forall_forall in Hok. }
  by exists s'.
Qed.

(** X18.  An entry without a connection descriptor ends the run with
    [KeyError] before any connection is requested; the entries after it
    are not processed. *)
Theorem entry_without_connection (d : list (string * value)) (rest : list value)
  (s : st2) :
  Py.assoc "connection" d = None ->
  for_each (VDict d :: rest) (main_database db_connect db_execute db_release) s =
    (Raise (KeyError "connection"), s).
Proof.
  intros Hc. simpl. unfold mbind at 1, M_bind at 1.
  unfold main_database. simpl. rewrite Hc. reflexivity.
Qed.

(** X19.  A PRINTER check without a query ends the loop over the checks
    with [KeyError]: nothing is sent or logged for it and the checks after
    it are not run. *)
Theorem printer_without_query (cur : H) (conn_config : value)
  (v : list (string * value)) (rest : list value) (s : st2) :
  Py.assoc "type" v = Some (VStr "PRINTER") ->
  Py.assoc "query" v = None ->
  for_each (VDict v :: rest) (main_validator db_execute cur conn_config) s =
    (Raise (KeyError "query"), s).
Proof.
  intros Htype Hq. simpl. unfold mbind at 1, M_bind at 1.
  unfold main_validator. simpl. rewrite Htype. simpl.
  unfold mbind at 1, M_bind at 1. simpl.
  unfold mbind at 1, M_bind at 1. simpl. rewrite Hq. reflexivity.
Qed.

(** X20.  A COUNT_CHECK without an operator is reported as an unsupported
    operator, [None]; its query is not sent. *)
Theorem count_check_without_operator (cur : H) (conn_config : value)
  (v : list (string * value)) (s : st2) :
  Py.assoc "type" v = Some (VStr "COUNT_CHECK") ->
  Py.assoc "operator" v = None ->
  exists s' : st2,
    main_validator db_execute cur conn_config (VDict v) s = (Ok tt, s') /\
    issued s' = issued s /\
    last (log s') = Some (ERROR, MUnsupportedOperator VNone).
Proof.
  intros Htype Hop. unfold main_validator. simpl. rewrite Htype, Hop. simpl.
  unfold run_count_check. run_monad.
  eexists. split; [reflexivity |]. simpl. split; [done |]. by rewrite last_snoc.
Qed.

Lemma for_each_issued {A} (body : A -> M st2 unit) (l : list A) :
  (forall x s, issued (snd (body x s)) = issued s) ->
  forall s, issued (snd (for_each l body s)) = issued s.
Proof.
  intros Hbody. induction l as [| x l IH]; intros s; simpl; [done |].
  unfold mbind, M_bind. pose proof (Hbody x s) as Hx.
  destruct (body x s) as [[[] | e | c] s1]; simpl in *; [| done | done].
  by rewrite IH.
Qed.

(** Whatever the check and whatever the server answers, [main] sends at
    most one statement for a check and keeps the statements sent before. *)
Lemma main_validator_issued (cur : H) (conn_config validator : value) (s : st2) :
  exists sent : list (H * statement),
    issued (snd (main_validator db_execute cur conn_config validator s)) =
      issued s ++ sent /\
    length sent <= 1.
Proof.
  unfold main_validator, run_printer, run_table_exists, run_count_check,
    run_includes_check.
  run_monad. unfold lift, raise, mret, M_ret.
  destruct (Py.get validator "type" VNone) as [e | vtype]; simpl; [none_sent |].
  repeat (match goal with
          | |- context [if Py.eq vtype ?k then _ else _] =>
              destruct (Py.eq vtype k); simpl
          end).
  - destruct (Py.getitem validator "query") as [e | q]; simpl; [none_sent |].
    destruct (Py.get validator "description" _) as [e | dsc]; simpl;
      [none_sent |].
    destruct (db_execute _ _ _) as [[e | [rs |]] w]; simpl; try one_sent.
    match goal with |- context [for_each ?l ?f ?s0] =>
      pose proof (for_each_issued f l (fun _ _ => eq_refl) s0) as Hl;
      destruct (for_each l f s0) as [[[] | e | c] s1] end;
      simpl in *; rewrite Hl; one_sent.
  - destruct (Py.get conn_config "schema" _) as [e | sch]; simpl; [none_sent |].
    destruct (Py.get validator "required_tables" _) as [e | req]; simpl;
      [none_sent |].
    destruct (db_execute _ _ _) as [[e | [rs |]] w]; simpl; try one_sent.
    case_all; one_sent.
  - destruct (Py.get validator "query" _) as [e | q]; simpl; [none_sent |].
    destruct (Py.get validator "value" _) as [e | val]; simpl; [none_sent |].
    destruct (Py.get validator "operator" _) as [e | op]; simpl; [none_sent |].
    destruct (Py.get validator "description" _) as [e | dsc]; simpl;
      [none_sent |].
    destruct (OPERATORS_get op) as [e | [f |]]; simpl; try none_sent.
    destruct (db_execute _ _ _) as [[e | [rs |]] w]; simpl; try one_sent.
    destruct (rs_rows rs) as [| r rows]; simpl; try one_sent.
    case_all; one_sent.
  - destruct (Py.get validator "query" _) as [e | q]; simpl; [none_sent |].
    destruct (Py.get validator "values" _) as [e | vals]; simpl; [none_sent |].
    destruct (Py.get validator "description" _) as [e | dsc]; simpl;
      [none_sent |].
    destruct (db_execute _ _ _) as [[e | [rs |]] w]; simpl; try one_sent.
    case_all; one_sent.
  - none_sent.
Qed.

(** X21.  Whatever the checks of a database and whatever the server
    answers, and however the loop over the checks ends, the statements
    sent before it are kept and at most one statement is sent per check. *)
Theorem checks_send_at_most_one_each (cur : H) (conn_config : value)
  (validators : list value) (s : st2) :
  exists sent : list (H * statement),
    issued (snd (for_each validators
                   (main_validator db_execute cur conn_config) s)) =
      issued s ++ sent /\
    length sent <= length validators.
Proof.
  revert s. induction validators as [| v validators IH]; intros s; simpl.
  - exists []. split; [by rewrite app_nil_r | done].
  - unfold mbind, M_bind.
    destruct (main_validator_issued cur conn_config v s) as (sent1 & H1 & Hlen1).
    destruct (main_validator db_execute cur conn_config v s) as [[[] | e | c] s1];
      simpl in *.
    + destruct (IH s1) as (sent2 & H2 & Hlen2).
      exists (sent1 ++ sent2). split.
      * by rewrite H2, H1, <- app_assoc.
      * rewrite length_app. lia.
    + exists sent1. split; [done | lia].
    + exists sent1. split; [done | lia].
Qed.

Lemma run_printer_announces (cursor : H) (query description : value) (s : st2) :
  exists s',
    run_printer db_execute cursor query description s = (Ok tt, s') /\
    announcements (log s') = announcements (log s) ++ [MRunningPrinter description].
Proof.
  unfold run_printer, try_except.
  unfold mbind, M_bind, cursor_execute, cursor_fetchall, cursor_description_names.
  simpl.
  destruct (db_execute _ _ _) as [[e | [rs |]] w]; simpl; try announced.
  rewrite for_each_logging. unfold logged. simpl.
  eexists. split; [reflexivity |]. simpl.
  rewrite !announcements_app, announcements_rows. simpl.
  by rewrite <- !app_assoc, !app_nil_r.
Qed.

Lemma run_table_exists_announces (cursor : H) (required_tables schema : value)
  (s : st2) :
  exists b s',
    run_table_exists db_execute cursor required_tables (Some schema) s =
      (Ok b, s') /\
    announcements (log s') =
      announcements (log s) ++ [MRunningTableExists required_tables].
Proof.
  unfold run_table_exists. run_monad.
  destruct (db_execute _ _ _) as [[e | [rs |]] w]; simpl; try (eexists; announced).
  case_lift; eexists; announced.
Qed.

Lemma run_count_check_announces (cursor : H)
  (query value_ op_str description : value) (s : st2) (f : option op_func) :
  OPERATORS_get op_str = inr f ->
  exists b s',
    run_count_check db_execute cursor query value_ op_str description s =
      (Ok b, s') /\
    announcements (log s') =
      announcements (log s) ++ [MRunningCountCheck description].
Proof.
  intros Hf. unfold run_count_check. rewrite Hf. run_monad.
  destruct f as [f |]; simpl; try (eexists; announced).
  destruct (db_execute _ _ _) as [[e | [rs |]] w]; simpl; try (eexists; announced).
  destruct (rs_rows rs) as [| r rows]; simpl; try (eexists; announced).
  case_lift; eexists; announced.
Qed.

Lemma run_includes_check_announces (cursor : H)
  (query expected_values description : value) (s : st2) :
  exists b s',
    run_includes_check db_execute cursor query expected_values description s =
      (Ok b, s') /\
    announcements (log s') =
      announcements (log s) ++ [MRunningIncludesCheck description].
Proof.
  unfold run_includes_check. run_monad.
  destruct (db_execute _ _ _) as [[e | [rs |]] w]; simpl; try (eexists; announced).
  case_lift; eexists; announced.
Qed.

Lemma main_validator_announces (cur : H) (conn_config : list (string * value))
  (validator : value) (s : st2) :
  well_formed validator ->
  exists s',
    main_validator db_execute cur (VDict conn_config) validator s = (Ok tt, s') /\
    announcements (log s') =
      announcements (log s) ++ option_list (announcement validator).
Proof.
  intros (v & -> & Hprinter & Hcount).
  unfold main_validator, announcement. simpl.
  destruct (Py.assoc "type" v) as [vtype |] eqn:Htype; unfold mbind, M_bind; simpl;
    [| exists s; by rewrite app_nil_r].
  destruct (Py.eq vtype (VStr "PRINTER")) eqn:E1.
  { apply eq_VStr in E1 as ->. destruct Hprinter as [q Hq]; [done |].
    rewrite Hq. simpl. apply run_printer_announces. }
  destruct (Py.eq vtype (VStr "TABLE_EXISTS")) eqn:E2.
  { apply eq_VStr in E2 as ->. simpl.
    match goal with |- context [run_table_exists _ _ ?r (Some ?sch) ?s0] =>
      destruct (run_table_exists_announces cur r sch s0) as (b & s' & -> & Hl) end.
    by exists s'. }
  destruct (Py.eq vtype (VStr "COUNT_CHECK")) eqn:E3.
  { apply eq_VStr in E3 as ->. simpl.
    destruct (OPERATORS_get_hashable _ (Hcount eq_refl)) as [f Hf].
    match goal with |- context [run_count_check _ _ ?q ?v ?o ?d ?s0] =>
      destruct (run_count_check_announces cur q v o d s0 f Hf) as (b & s' & -> & Hl)
    end.
    by exists s'. }
  destruct (Py.eq vtype (VStr "INCLUDES_CHECK")) eqn:E4.
  { apply eq_VStr in E4 as ->. simpl.
    match goal with |- context [run_includes_check _ _ ?q ?v ?d ?s0] =>
      destruct (run_includes_check_announces cur q v d s0) as (b & s' & -> & Hl)
    end.
    by exists s'. }
  exists s. split; [done |].
  destruct vtype as [| | | | | kind | |]; try by rewrite app_nil_r.
  simpl in E1, E2, E3, E4. rewrite E1, E2, E3, E4. by rewrite app_nil_r.
Qed.

(** X23.  When every check of a database is well formed, the loop over
    them runs each one, in their order, and ends normally: the executors
    announce themselves in the log in the order of the checks, one
    announcement for each check of a known kind, carrying the description
    or the tables of that check; a check that fails, or whose query the
    server rejects, stops none of the following ones. *)
Theorem validators_all_run (cur : H) (conn_config : list (string * value))
  (validators : list value) (s : st2) :
  Forall well_formed validators ->
  exists s',
    for_each validators (main_validator db_execute cur (VDict conn_config)) s =
      (Ok tt, s') /\
    announcements (log s') =
      announcements (log s) ++ omap announcement validators.
Proof.
  intros Hwf. revert s. induction Hwf as [| v validators Hv _ IH]; intros s.
  - exists s. by rewrite app_nil_r.
  - destruct (main_validator_announces cur conn_config v s Hv) as (s1 & Hs1 & Hl1).
    destruct (IH s1) as (s' & Hs' & Hl').
    exists s'. split.
    + simpl. unfold mbind, M_bind. by rewrite Hs1.
    + rewrite Hl', Hl1, <- app_assoc. f_equal.
      simpl. by destruct (announcement v).
Qed.

End RunEdges.

(** ** The further properties on the concrete server *)


Lemma run_printer_query_error_witness :
  run_printer Demo.db_execute "shop" (VStr "SELEC 1") (VStr "typo") Demo.start =
    (Ok tt,
     {| world := []; pending := None;
        issued := issued Demo.start ++ [("shop", UserQuery (VStr "SELEC 1"))];
        log := log Demo.start ++ printer_preamble (VStr "SELEC 1") (VStr "typo") ++
               [(ERROR, MPrinterFailed (DbError "syntax error"))] |}).
Proof.
  apply (run_printer_query_error Demo.db_execute "shop" (VStr "SELEC 1")
           (VStr "typo") Demo.start (DbError "syntax error") []).
  reflexivity.
Defined.

Lemma run_table_exists_query_error_witness :
  run_table_exists Demo.db_execute_down "shop" (VList []) (Some (VStr "public"))
    Demo.start =
    (Ok false,
     {| world := []; pending := None;
        issued := issued Demo.start ++
                  [("shop", SelectBaseTables (VStr "public"))];
        log := log Demo.start ++ table_exists_preamble (VList []) ++
               [(ERROR,
                 MTableExistsFailed (DbError "server closed the connection"))] |}).
Proof.
  apply (run_table_exists_query_error Demo.db_execute_down "shop" (VList [])
           (VStr "public") Demo.start (DbError "server closed the connection") []).
  reflexivity.
Defined.

Lemma run_table_exists_not_a_list_witness :
  exists s',
    run_table_exists Demo.db_execute "shop" VNone (Some (VStr "public"))
      Demo.start = (Ok false, s') /\
    log s' = log Demo.start ++ table_exists_preamble VNone ++
             [(ERROR, MTableExistsFailed TypeError)].
Proof.
  apply (run_table_exists_not_a_list Demo.db_execute "shop" VNone (VStr "public")
           ["orders"; "users"] Demo.start ["table_name"] []).
  - reflexivity.
  - left. reflexivity.
Defined.

Lemma run_table_exists_string_is_characters_witness :
  exists (passed : bool) s',
    run_table_exists (Demo.db_execute_rows (catalog_rows ["é"; "orders"])) "shop"
      (VStr (join ["é"])) (Some (VStr "public")) Demo.start = (Ok passed, s') /\
    (passed = true <-> forall c, c ∈ ["é"] -> c ∈ ["é"; "orders"]) /\
    (passed = false ->
       last (log s') =
         Some (ERROR,
               MMissingTables
                 (map VStr (filter (fun c => c ∉ ["é"; "orders"]) ["é"])))).
Proof.
  apply (run_table_exists_string_is_characters
           (Demo.db_execute_rows (catalog_rows ["é"; "orders"])) "shop"
           (VStr "public") ["é"] ["é"; "orders"] Demo.start ["value"] []).
  - repeat constructor.
  - reflexivity.
Defined.

Lemma run_count_check_query_error_witness :
  run_count_check Demo.db_execute "shop" (VStr "SELEC 1") (VInt 3) (VStr ">=")
    (VStr "typo") Demo.start =
    (Ok false,
     {| world := []; pending := None;
        issued := issued Demo.start ++ [("shop", UserQuery (VStr "SELEC 1"))];
        log := log Demo.start ++
               count_check_preamble (VStr "SELEC 1") (VInt 3) (VStr ">=")
                 (VStr "typo") ++
               [(ERROR, MCountCheckFailed (DbError "syntax error"))] |}).
Proof.
  apply (run_count_check_query_error Demo.db_execute "shop" (VStr "SELEC 1")
           (VInt 3) (VStr "typo") ">=" Demo.start (DbError "syntax error") []).
  - unfold supported. repeat constructor.
  - reflexivity.
Defined.

Lemma run_count_check_no_columns_witness :
  exists s',
    run_count_check (Demo.db_execute_rows [[]]) "shop" (VStr "SELECT") (VInt 3)
      (VStr ">=") (VStr "no column") Demo.start = (Ok false, s') /\
    log s' = log Demo.start ++
             count_check_preamble (VStr "SELECT") (VInt 3) (VStr ">=")
               (VStr "no column") ++
             [(ERROR, MCountCheckFailed IndexError)].
Proof.
  apply (run_count_check_no_columns (Demo.db_execute_rows [[]]) "shop"
           (VStr "SELECT") (VInt 3) (VStr "no column") ">=" Demo.start
           ["value"] [] []).
  - unfold supported. repeat constructor.
  - reflexivity.
Defined.

Lemma run_count_check_text_against_number_witness :
  exists (passed : bool) s',
    run_count_check (Demo.db_execute_rows [[VStr "5"]]) "shop"
      (VStr "SELECT code FROM orders") (VInt 3) (VStr ">=") (VStr "code")
      Demo.start = (Ok passed, s') /\
    (passed = true <-> ">=" = "!=") /\
    (">=" ∈ ordering ->
     last (log s') = Some (ERROR, MCountCheckFailed TypeError)) /\
    (">=" = "=" ->
     last (log s') =
       Some (ERROR, MCheckFailed (VStr "5") (VStr "=") (VInt 3))).
Proof.
  apply (run_count_check_text_against_number (Demo.db_execute_rows [[VStr "5"]])
           "shop" (VStr "SELECT code FROM orders") (VStr "code") ">=" "5" 3
           Demo.start ["value"] [] [] []).
  - unfold supported. repeat constructor.
  - reflexivity.
Defined.

Lemma run_count_check_not_a_number_witness :
  exists (passed : bool) s',
    run_count_check (Demo.db_execute_rows [[VDecimal (DNan 0)]]) "shop"
      (VStr "SELECT avg(total) FROM orders") (VInt 3) (VStr ">=")
      (VStr "average total") Demo.start = (Ok passed, s') /\
    (passed = true <-> ">=" = "!=") /\
    (">=" ∈ ordering ->
     last (log s') = Some (ERROR, MCountCheckFailed InvalidOperation)).
Proof.
  apply (run_count_check_not_a_number (Demo.db_execute_rows [[VDecimal (DNan 0)]])
           "shop" (VStr "SELECT avg(total) FROM orders") (VStr "average total")
           ">=" (VDecimal (DNan 0)) (VInt 3) 0 (rational (inject_Z 3))
           Demo.start ["value"] [] [] []).
  - unfold supported. repeat constructor.
  - by right.
  - constructor.
  - reflexivity.
Defined.

Lemma run_count_check_sends_query_witness :
  exists (passed : bool) s',
    run_count_check Demo.db_execute "shop" Demo.count_orders (VInt 3) (VStr "<")
      (VStr "few orders") Demo.start = (Ok passed, s') /\
    issued s' = issued Demo.start ++ [("shop", UserQuery Demo.count_orders)].
Proof.
  apply (run_count_check_sends_query Demo.db_execute "shop" Demo.count_orders
           (VInt 3) (VStr "few orders") "<" Demo.start).
  unfold supported. repeat constructor.
Defined.

Lemma run_includes_check_query_error_witness :
  run_includes_check Demo.db_execute "shop" (VStr "SELEC 1")
    (VList [VList [VInt 1]]) (VStr "typo") Demo.start =
    (Ok false,
     {| world := []; pending := None;
        issued := issued Demo.start ++ [("shop", UserQuery (VStr "SELEC 1"))];
        log := log Demo.start ++
               includes_check_preamble (VStr "SELEC 1") (VList [VList [VInt 1]])
                 (VStr "typo") ++
               [(ERROR, MIncludesCheckFailed (DbError "syntax error"))] |}).
Proof.
  apply (run_includes_check_query_error Demo.db_execute "shop" (VStr "SELEC 1")
           (VList [VList [VInt 1]]) (VStr "typo") Demo.start
           (DbError "syntax error") []).
  reflexivity.
Defined.

Lemma run_includes_check_nothing_expected_witness :
  exists s',
    run_includes_check Demo.db_execute "shop" Demo.list_users (VList [])
      (VStr "users") Demo.start = (Ok true, s') /\
    last (log s') = Some (INFO, MAllPresent).
Proof.
  apply (run_includes_check_nothing_expected Demo.db_execute "shop"
           Demo.list_users (VStr "users")
           [[VInt 1; VStr "a"]; [VInt 2; VStr "b"]; [VInt 1; VStr "a"]]
           [[Py.KNum 1 1; Py.KStr "a"]; [Py.KNum 2 1; Py.KStr "b"];
            [Py.KNum 1 1; Py.KStr "a"]]
           Demo.start ["id"; "name"] []).
  - reflexivity.
  - repeat constructor; by eexists.
Defined.

Lemma run_includes_check_unhashable_column_witness :
  exists s',
    run_includes_check (Demo.db_execute_rows [[VInt 1; VList [VStr "x"]]]) "shop"
      (VStr "SELECT id, tags FROM orders") (VList []) (VStr "tags")
      Demo.start = (Ok false, s') /\
    last (log s') = Some (ERROR, MIncludesCheckFailed TypeError).
Proof.
  apply (run_includes_check_unhashable_column
           (Demo.db_execute_rows [[VInt 1; VList [VStr "x"]]]) "shop"
           (VStr "SELECT id, tags FROM orders") (VList []) (VStr "tags")
           [VInt 1] [VStr "x"] [] [Py.KNum 1 1] [] Demo.start ["value"] []).
  - reflexivity.
  - reflexivity.
Defined.

Lemma create_connection_incomplete_witness :
  create_connection Demo.db_connect Demo.db_execute
    (VDict Demo.descriptor_without_port) Demo.start =
    (Exit 1, logged Demo.start [(ERROR, MConnectFailed (KeyError "port"))]).
Proof.
  apply (create_connection_incomplete Demo.db_connect Demo.db_execute
           Demo.descriptor_without_port ["host"] ["dbname"; "user"; "password"]
           "port" Demo.start).
  - reflexivity.
  - repeat constructor. by eexists.
  - reflexivity.
Defined.


Lemma create_connection_search_path_rejected_witness :
  create_connection Demo.db_connect Demo.db_execute_down
    (VDict Demo.sales_descriptor) Demo.start =
    (Exit 1,
     {| world := ["shop"]; pending := None;
        issued := issued Demo.start ++ [("shop", SetSearchPath (VStr "sales"))];
        log := log Demo.start ++
               [(INFO, MConnected);
                (ERROR, MConnectFailed
                          (DbError "server closed the connection"))] |}).
Proof.
  eapply (create_connection_search_path_rejected Demo.db_connect
            Demo.db_execute_down Demo.sales_descriptor _ "shop" (VStr "sales")
            (DbError "server closed the connection") Demo.start
            ["shop"] ["shop"]).
  - reflexivity.
  - reflexivity.
  - reflexivity.
  - reflexivity.
  - reflexivity.
Defined.

Lemma main_completes_witness :
  exists s',
    main Demo.db_connect Demo.db_execute Demo.db_release
      (Loaded (VDict Demo.shop_then_audit)) Demo.start = (Ok tt, s').
Proof.
  apply (main_completes Demo.db_connect Demo.db_execute Demo.db_release
           Demo.shop_then_audit
           [VDict (Demo.entry "shop"); VDict (Demo.entry "audit")] Demo.start).
  - reflexivity.
  - intros h schema w. eexists _, _. reflexivity.
  - reflexivity.
  - repeat constructor.
    all: eexists _, _, _, _;
      (split; [reflexivity |]); (split; [reflexivity |]);
      (split; [reflexivity |]);
      (split; [intros w; eexists _, _; reflexivity |]);
      (split; [reflexivity |]);
      repeat constructor;
      eexists; (split; [reflexivity |]);
      (split; [intros Hx; discriminate Hx | intros _; eexists; reflexivity]).
Defined.

Lemma entry_without_connection_witness :
  for_each (VDict [("validation", VList [])] :: [VDict (Demo.entry "shop")])
    (main_database Demo.db_connect Demo.db_execute Demo.db_release) Demo.start =
    (Raise (KeyError "connection"), Demo.start).
Proof.
  apply (entry_without_connection Demo.db_connect Demo.db_execute Demo.db_release
           [("validation", VList [])] [VDict (Demo.entry "shop")] Demo.start).
  reflexivity.
Defined.

Lemma printer_without_query_witness :
  for_each
    (VDict [("type", VStr "PRINTER"); ("description", VStr "show the orders")]
       :: [Demo.count_orders_check ">=" 3])
    (main_validator Demo.db_execute "shop" (Demo.connection "shop")) Demo.start =
    (Raise (KeyError "query"), Demo.start).
Proof.
  apply (printer_without_query Demo.db_execute "shop" (Demo.connection "shop")
           [("type", VStr "PRINTER"); ("description", VStr "show the orders")]
           [Demo.count_orders_check ">=" 3] Demo.start).
  - reflexivity.
  - reflexivity.
Defined.

Lemma count_check_without_operator_witness :
  exists s',
    main_validator Demo.db_execute "shop" (Demo.connection "shop")
      (VDict Demo.count_check_without_operator) Demo.start = (Ok tt, s') /\
    issued s' = issued Demo.start /\
    last (log s') = Some (ERROR, MUnsupportedOperator VNone).
Proof.
  apply (count_check_without_operator Demo.db_execute "shop"
           (Demo.connection "shop") Demo.count_check_without_operator Demo.start).
  - reflexivity.
  - reflexivity.
Defined.

Lemma validators_all_run_witness :
  exists s',
    for_each [Demo.users_printer; Demo.count_orders_check "=>" 3;
              Demo.row_count_check; Demo.table_exists_in_audit;
              Demo.users_included; Demo.count_orders_check ">=" 3]
      (main_validator Demo.db_execute "shop" (VDict Demo.sales_descriptor))
      Demo.start = (Ok tt, s') /\
    announcements (log s') =
      announcements (log Demo.start) ++
      omap announcement
        [Demo.users_printer; Demo.count_orders_check "=>" 3;
         Demo.row_count_check; Demo.table_exists_in_audit;
         Demo.users_included; Demo.count_orders_check ">=" 3].
Proof.
  apply (validators_all_run Demo.db_execute "shop" Demo.sales_descriptor
           [Demo.users_printer; Demo.count_orders_check "=>" 3;
            Demo.row_count_check; Demo.table_exists_in_audit;
            Demo.users_included; Demo.count_orders_check ">=" 3] Demo.start).
  repeat constructor.
  all: eexists; (split; [reflexivity |]);
    (split; [intros Hx; first [discriminate Hx | by eexists]
            | intros Hx; first [discriminate Hx | by eexists]]).
Defined.
